(** * HunterServer: a browser-automation client, verified over a shallow embedding

    The Python sources drive a remote browser through Selenium.  Every
    function below is the translation of the source function of the same
    name into a state-and-exception monad over an abstract browser: the
    browser (and the file system it shares the machine with) answers each
    primitive command through a [World], and the commands issued are kept in
    a log so that frame properties can be stated. *)

From Stdlib Require Import String Ascii List Bool Arith Lia.
From stdpp Require Import base option list gmap strings.

Local Open Scope string_scope.
Local Open Scope list_scope.

(** ** Python values used by the sources *)

(** Substring test, Python's [needle in hay] on [str]. *)
Fixpoint str_in (needle hay : string) : bool :=
  String.prefix needle hay ||
  match hay with
  | EmptyString => false
  | String _ rest => str_in needle rest
  end.

(** Truthiness of a [str]: only the empty string is falsy. *)
Definition truthy_str (s : string) : bool :=
  match s with
  | EmptyString => false
  | String _ _ => true
  end.

(** Truthiness of the result of [get_attribute]: [None] and [""] are falsy. *)
Definition truthy_attr (o : option string) : bool :=
  match o with
  | None => false
  | Some s => truthy_str s
  end.

(** Truthiness of a list. *)
Definition truthy_list {A : Type} (l : list A) : bool :=
  match l with
  | [] => false
  | _ :: _ => true
  end.

(** The atoms a cookie file stores under a key. *)
Inductive json : Type :=
| JNull
| JBool (b : bool)
| JNum (n : nat)
| JStr (s : string).

(** A cookie record is a Python [dict] with string keys. *)
Abbreviation cookie := (gmap string json).

(** The exceptions the sources raise, catch or let through. *)
Inductive exn : Type :=
| TimeoutException
| NoSuchElementException
| StaleElementReferenceException
| WebDriverException (msg : string)
| KeyError (key : string)
| FileNotFoundError (path : string)
| JSONDecodeError
| PyException (msg : string).

(** [isinstance(e, FileNotFoundError)], for the first [except] clause of
    [login_with_cookies]. *)
Definition is_file_not_found (e : exn) : bool :=
  match e with
  | FileNotFoundError _ => true
  | _ => false
  end.

Inductive result (A : Type) : Type :=
| Ok (a : A)
| Raise (e : exn).
Arguments Ok {A} a.
Arguments Raise {A} e.

(** ** Selenium vocabulary *)

Inductive By : Type := ID | XPATH.

Abbreviation locator := (By * string)%type.

(** A reference to an element of the rendered page: found from the document
    root or relative to another element, the [idx]-th match of its locator. *)
Inductive WebElement : Type :=
| Root (loc : locator) (idx : nat)
| Child (parent : WebElement) (loc : locator) (idx : nat).

(** What [send_keys] may be given: text, or the confirm key [Keys.RETURN]. *)
Inductive keys : Type :=
| Text (s : string)
| RETURN.

(** The three expected conditions of [BasePage]. *)
Inductive condition : Type :=
| Visible
| Clickable
| Present.

(** One evaluation of an expected condition by [WebDriverWait.until]: the
    element; nothing yet (the ignored [NoSuchElementException] or a false
    value), with the deadline of the wait still ahead; nothing, and the
    evaluation (slowed down by the implicit wait of the driver) has taken
    the wait past its deadline; or an exception that [until] does not
    ignore. *)
Inductive probe : Type :=
| Hit (el : WebElement)
| Miss
| Overdue
| Fault (e : exn).

Inductive level : Type := PLAIN | INFO | STEP | SUCCESS | WARNING | ERROR | CLEANUP | COMPLETE | FATAL.

(** The commands the program issues, in the order it issues them. *)
Inductive event : Type :=
| EvInstall
| EvStart
| EvGet (url : string)
| EvRefresh
| EvCurrentUrl
| EvAddCookie (c : cookie)
| EvQuit
| EvProbe (c : condition) (loc : locator)
| EvFindElements (scope : option WebElement) (loc : locator)
| EvFindElement (scope : WebElement) (loc : locator)
| EvClear (el : WebElement)
| EvSendKeys (el : WebElement) (k : keys)
| EvClick (el : WebElement)
| EvGetAttribute (el : WebElement) (name : string)
| EvText (el : WebElement)
| EvSleep (ticks : nat)
| EvExists (path : string)
| EvRead (path : string)
| EvPrint (lvl : level) (msg : string).

(** ** config.py *)

Module config.

Record t : Type := {
  AUTH_METHOD : string;
  COOKIE_FILE_PATH : string;
  LINKEDIN_USERNAME : string;
  LINKEDIN_PASSWORD : string;
  DEFAULT_JOB_KEYWORDS : string;
  DEFAULT_JOB_LOCATION : string
}.

Definition BASE_URL : string := "https://www.linkedin.com".
Definition IMPLICIT_WAIT : nat := 10.
Definition PAGE_LOAD_TIMEOUT : nat := 30.
Definition EXPLICIT_WAIT : nat := 15.

End config.

(** ** The browser and the file system, as the program sees them

    [St] is the hidden state of the outside world; each handler answers one
    primitive command and moves that state.  Nothing is assumed about the
    handlers: a theorem stated for every [World] holds for every behaviour
    of the browser. *)
Record World (St : Type) : Type := {
  w_install : St -> result string * St;
  w_start : St -> result unit * St;
  w_get : string -> St -> result unit * St;
  w_refresh : St -> result unit * St;
  w_current_url : St -> result string * St;
  w_add_cookie : cookie -> St -> result unit * St;
  w_quit : St -> result unit * St;
  w_probe : condition -> locator -> St -> probe * St;
  w_find_elements : option WebElement -> locator -> St -> result (list WebElement) * St;
  w_find_element : WebElement -> locator -> St -> result WebElement * St;
  w_clear : WebElement -> St -> result unit * St;
  w_send_keys : WebElement -> keys -> St -> result unit * St;
  w_click : WebElement -> St -> result unit * St;
  w_get_attribute : WebElement -> string -> St -> result (option string) * St;
  w_text : WebElement -> St -> result string * St;
  w_sleep : nat -> St -> St;
  w_exists : string -> St -> bool;
  w_read_json : string -> St -> result (list cookie)
}.
Arguments w_install {St}.
Arguments w_start {St}.
Arguments w_get {St}.
Arguments w_refresh {St}.
Arguments w_current_url {St}.
Arguments w_add_cookie {St}.
Arguments w_quit {St}.
Arguments w_probe {St}.
Arguments w_find_elements {St}.
Arguments w_find_element {St}.
Arguments w_clear {St}.
Arguments w_send_keys {St}.
Arguments w_click {St}.
Arguments w_get_attribute {St}.
Arguments w_text {St}.
Arguments w_sleep {St}.
Arguments w_exists {St}.
Arguments w_read_json {St}.

(** The state a run threads: the world and the log of commands so far. *)
Record Session (St : Type) : Type := MkSession {
  world : St;
  log : list event
}.
Arguments MkSession {St}.
Arguments world {St}.
Arguments log {St}.

(** ** The monad of the embedding: state passing with Python exceptions *)

Definition M (St A : Type) : Type := Session St -> result A * Session St.

Definition ret {St A : Type} (a : A) : M St A := fun s => (Ok a, s).

Definition raise {St A : Type} (e : exn) : M St A := fun s => (Raise e, s).

Definition bind {St A B : Type} (m : M St A) (k : A -> M St B) : M St B :=
  fun s =>
    match m s with
    | (Ok a, s') => k a s'
    | (Raise e, s') => (Raise e, s')
    end.

(** [try: m  except Exception as e: h e]. *)
Definition try_except {St A : Type} (m : M St A) (h : exn -> M St A) : M St A :=
  fun s =>
    match m s with
    | (Ok a, s') => (Ok a, s')
    | (Raise e, s') => h e s'
    end.

(** [try: m  finally: fin]: [fin] runs on every exit path; an exception of
    [fin] replaces the outcome of [m]. *)
Definition try_finally {St A : Type} (m : M St A) (fin : M St unit) : M St A :=
  fun s =>
    match m s with
    | (r, s') =>
        match fin s' with
        | (Ok _, s'') => (r, s'')
        | (Raise e, s'') => (Raise e, s'')
        end
    end.

Declare Scope py_scope.
Delimit Scope py_scope with py.
Notation "x <- m ;; k" := (bind m (fun x => k))
  (at level 100, m at next level, k at level 200, right associativity) : py_scope.
Notation "m ;; k" := (bind m (fun _ => k))
  (at level 100, k at level 200, right associativity) : py_scope.
Local Open Scope py_scope.

(** Issue one command: log it, then let the world answer. *)
Definition emit {St : Type} (ev : event) : M St unit :=
  fun s => (Ok tt, MkSession (world s) (log s ++ [ev])).

Definition ask {St A : Type} (h : St -> result A * St) : M St A :=
  fun s => let '(r, w) := h (world s) in (r, MkSession w (log s)).

(** [print]: the level is the bracketed tag of the message, the text its
    constant part (the interpolated values are left out). *)
Definition print {St : Type} (lvl : level) (msg : string) : M St unit :=
  emit (EvPrint lvl msg).

(** ** The program *)

Section Program.

Context {St : Type}.
Variable W : World St.
Variable cfg : config.t.

(** *** Primitive commands of the driver, of an element and of the host *)

Definition driver_get (url : string) : M St unit :=
  emit (EvGet url) ;; ask (w_get W url).

Definition driver_refresh : M St unit :=
  emit EvRefresh ;; ask (w_refresh W).

Definition driver_current_url : M St string :=
  emit EvCurrentUrl ;; ask (w_current_url W).

Definition driver_add_cookie (c : cookie) : M St unit :=
  emit (EvAddCookie c) ;; ask (w_add_cookie W c).

Definition driver_quit : M St unit :=
  emit EvQuit ;; ask (w_quit W).

Definition driver_find_elements (loc : locator) : M St (list WebElement) :=
  emit (EvFindElements None loc) ;; ask (w_find_elements W None loc).

Definition el_find_elements (el : WebElement) (loc : locator) : M St (list WebElement) :=
  emit (EvFindElements (Some el) loc) ;; ask (w_find_elements W (Some el) loc).

Definition el_find_element (el : WebElement) (loc : locator) : M St WebElement :=
  emit (EvFindElement el loc) ;; ask (w_find_element W el loc).

Definition el_clear (el : WebElement) : M St unit :=
  emit (EvClear el) ;; ask (w_clear W el).

Definition el_send_keys (el : WebElement) (k : keys) : M St unit :=
  emit (EvSendKeys el k) ;; ask (w_send_keys W el k).

Definition el_click (el : WebElement) : M St unit :=
  emit (EvClick el) ;; ask (w_click W el).

Definition el_get_attribute (el : WebElement) (name : string) : M St (option string) :=
  emit (EvGetAttribute el name) ;; ask (w_get_attribute W el name).

Definition el_text (el : WebElement) : M St string :=
  emit (EvText el) ;; ask (w_text W el).

(** [time.sleep]; the unit of time is the polling interval of
    [WebDriverWait], half a second. *)
Definition time_sleep (ticks : nat) : M St unit :=
  emit (EvSleep ticks) ;;
  fun s => (Ok tt, MkSession (w_sleep W ticks (world s)) (log s)).

Definition os_path_exists (path : string) : M St bool :=
  emit (EvExists path) ;; fun s => (Ok (w_exists W path (world s)), s).

(** [open(path)] followed by [json.load]. *)
Definition read_json (path : string) : M St (list cookie) :=
  emit (EvRead path) ;; fun s => (w_read_json W path (world s), s).

Definition probe_once (c : condition) (loc : locator) : M St probe :=
  emit (EvProbe c loc) ;;
  fun s => let '(p, w) := w_probe W c loc (world s) in (Ok p, MkSession w (log s)).

(** *** selenium's WebDriverWait

    [until] evaluates the condition and returns on a truthy value;
    otherwise it gives up with [TimeoutException] when the deadline has
    passed, and else sleeps one polling interval and evaluates again.  With
    a deadline of [timeout] seconds and two polls a second that is at most
    [2 * timeout + 1] evaluations, with a sleep between two consecutive
    ones and none after the last; an evaluation that is itself slow can
    bring the deadline forward. *)
Definition polls_within (timeout : nat) : nat := S (2 * timeout).

Fixpoint until (polls : nat) (c : condition) (loc : locator) : M St WebElement :=
  match polls with
  | 0 => raise TimeoutException
  | S n =>
      p <- probe_once c loc ;;
      match p with
      | Hit el => ret el
      | Miss =>
          match n with
          | 0 => raise TimeoutException
          | S _ => time_sleep 1 ;; until n c loc
          end
      | Overdue => raise TimeoutException
      | Fault e => raise e
      end
  end.

(** [until(lambda d: d.current_url != current_url)]. *)
Fixpoint until_url_differs (polls : nat) (current_url : string) : M St bool :=
  match polls with
  | 0 => raise TimeoutException
  | S n =>
      u <- driver_current_url ;;
      if negb (String.eqb u current_url) then ret true
      else
        match n with
        | 0 => raise TimeoutException
        | S _ => time_sleep 1 ;; until_url_differs n current_url
        end
  end.

(** *** pages/base_page.py *)

Definition wait_until_visible (loc : locator) : M St WebElement :=
  until (polls_within config.EXPLICIT_WAIT) Visible loc.

Definition wait_until_clickable (loc : locator) : M St WebElement :=
  until (polls_within config.EXPLICIT_WAIT) Clickable loc.

Definition wait_until_present (loc : locator) : M St WebElement :=
  until (polls_within config.EXPLICIT_WAIT) Present loc.

Definition wait_for_url_change (current_url : string) (timeout : nat) : M St bool :=
  try_except
    (until_url_differs (polls_within timeout) current_url ;; ret true)
    (fun _ => ret false).

Definition find_element (loc : locator) : M St WebElement :=
  wait_until_visible loc.

Definition find_elements (loc : locator) : M St (list WebElement) :=
  driver_find_elements loc.

Definition click_element (loc : locator) : M St unit :=
  element <- wait_until_clickable loc ;;
  el_click element.

Definition enter_text (loc : locator) (text : string) : M St unit :=
  element <- wait_until_visible loc ;;
  el_clear element ;;
  el_send_keys element (Text text).

Definition get_current_url : M St string := driver_current_url.

Definition navigate_to (url : string) : M St unit := driver_get url.

(** *** pages/login_page.py *)

Definition LOGIN_URL : string := config.BASE_URL +:+ "/login".
Definition USERNAME_INPUT : locator := (ID, "username").
Definition PASSWORD_INPUT : locator := (ID, "password").
Definition LOGIN_BUTTON : locator := (XPATH, "//button[@type='submit']").
Definition ERROR_MESSAGE : locator := (ID, "error-for-username").

Definition navigate_to_login : M St unit := navigate_to LOGIN_URL.

Definition enter_username (username : string) : M St unit :=
  element <- wait_until_visible USERNAME_INPUT ;;
  el_clear element ;;
  el_send_keys element (Text username).

Definition enter_password (password : string) : M St unit :=
  element <- wait_until_visible PASSWORD_INPUT ;;
  el_clear element ;;
  el_send_keys element (Text password).

Definition click_login_button : M St unit :=
  element <- wait_until_clickable LOGIN_BUTTON ;;
  el_click element.

Definition _is_login_successful : M St bool :=
  current_url <- get_current_url ;;
  ret (negb (str_in "/login" current_url) && negb (str_in "/checkpoint" current_url)).

Definition login (username password : string) : M St bool :=
  login_url <- get_current_url ;;
  enter_username username ;;
  enter_password password ;;
  click_login_button ;;
  url_changed <- wait_for_url_change login_url 15 ;;
  if negb url_changed then ret false
  else _is_login_successful.

Definition get_error_message : M St (option string) :=
  try_except
    (element <- wait_until_visible ERROR_MESSAGE ;;
     t <- el_text element ;;
     ret (Some t))
    (fun _ => ret None).

(** *** pages/job_search_page.py *)

Definition JOBS_URL : string := config.BASE_URL +:+ "/jobs".
Definition SEARCH_KEYWORD_INPUT : locator :=
  (XPATH, "//input[contains(@aria-label, 'Search by title')]").
Definition SEARCH_LOCATION_INPUT : locator :=
  (XPATH, "//input[contains(@aria-label, 'City, state, or zip')]").
Definition SEARCH_BUTTON : locator :=
  (XPATH, "//button[contains(@class, 'jobs-search-box__submit-button')]").
Definition EASY_APPLY_FILTER : locator :=
  (XPATH, "//button[@aria-label='Easy Apply filter.']").
Definition JOB_CARDS : locator :=
  (XPATH, "//div[contains(@class, 'job-card-container')]").
Definition JOB_TITLE_LINK : locator :=
  (XPATH, ".//a[contains(@class, 'job-card-list__title')]").
Definition EASY_APPLY_BADGE : locator :=
  (XPATH, ".//span[contains(text(), 'Easy Apply')]").
Definition NEXT_PAGE_BUTTON : locator :=
  (XPATH, "//button[@aria-label='View next page']").

Definition navigate_to_jobs : M St unit := navigate_to JOBS_URL.

Definition _wait_for_job_results : M St bool :=
  try_except
    (wait_until_present JOB_CARDS ;;
     time_sleep 2 ;;
     ret true)
    (fun _ => ret false).

Definition search_jobs (keyword location : string) : M St unit :=
  keyword_input <- wait_until_visible SEARCH_KEYWORD_INPUT ;;
  el_clear keyword_input ;;
  el_send_keys keyword_input (Text keyword) ;;
  (if truthy_str location then
     location_input <- wait_until_visible SEARCH_LOCATION_INPUT ;;
     el_clear location_input ;;
     el_send_keys location_input (Text location)
   else ret tt) ;;
  el_send_keys keyword_input RETURN ;;
  _wait_for_job_results ;;
  ret tt.

Definition apply_filters (easy_apply : bool) : M St unit :=
  if easy_apply then
    try_except
      (easy_apply_btn <- wait_until_clickable EASY_APPLY_FILTER ;;
       el_click easy_apply_btn ;;
       _wait_for_job_results ;;
       print INFO "Easy Apply filter applied successfully")
      (fun _ => print WARNING "Could not apply Easy Apply filter")
  else ret tt.

Definition get_job_cards : M St (list WebElement) :=
  try_except
    (wait_until_present JOB_CARDS ;;
     find_elements JOB_CARDS)
    (fun _ => ret []).

(** The body of the [for card in job_cards] loop, with its [try]/[except
    Exception: continue]; the accumulator is the list being appended to. *)
Definition read_card (card : WebElement) (easy_apply_links : list string)
  : M St (list string) :=
  try_except
    (easy_apply_badges <- el_find_elements card EASY_APPLY_BADGE ;;
     if truthy_list easy_apply_badges then
       title_link <- el_find_element card JOB_TITLE_LINK ;;
       job_url <- el_get_attribute title_link "href" ;;
       match job_url with
       | Some url => if truthy_str url then ret (easy_apply_links ++ [url])
                     else ret easy_apply_links
       | None => ret easy_apply_links
       end
     else ret easy_apply_links)
    (fun _ => ret easy_apply_links).

Fixpoint read_cards (job_cards : list WebElement) (easy_apply_links : list string)
  : M St (list string) :=
  match job_cards with
  | [] => ret easy_apply_links
  | card :: rest =>
      links <- read_card card easy_apply_links ;;
      read_cards rest links
  end.

Definition get_easy_apply_job_links : M St (list string) :=
  job_cards <- get_job_cards ;;
  print INFO "Found job cards on page" ;;
  read_cards job_cards [].

Definition go_to_next_page : M St bool :=
  try_except
    (next_btn <- wait_until_clickable NEXT_PAGE_BUTTON ;;
     el_click next_btn ;;
     _wait_for_job_results ;;
     ret true)
    (fun _ => ret false).

(** *** utilities/cookie_manager.py *)

(** [file_path or config.COOKIE_FILE_PATH]: [None] and [""] fall back. *)
Definition path_or_default (file_path : option string) : string :=
  match file_path with
  | Some p => if truthy_str p then p else config.COOKIE_FILE_PATH cfg
  | None => config.COOKIE_FILE_PATH cfg
  end.

Definition load_cookies_from_file (file_path : option string) : M St (list cookie) :=
  let path := path_or_default file_path in
  present <- os_path_exists path ;;
  if negb present then raise (FileNotFoundError path)
  else read_json path.

(** [cookie[key]] on a dict. *)
Definition subscript (c : cookie) (key : string) : M St json :=
  match c !! key with
  | Some v => ret v
  | None => raise (KeyError key)
  end.

(** [if key in cookie: cookie_to_add[key] = cookie[key]]. *)
Definition copy_if_present (key : string) (c cookie_to_add : cookie) : cookie :=
  match c !! key with
  | Some v => <[key := v]> cookie_to_add
  | None => cookie_to_add
  end.

(** The dict handed to [driver.add_cookie], from its three mandatory
    entries. *)
Definition cookie_to_add (c : cookie) (name value : json) : cookie :=
  let base : cookie :=
    <["domain" := default (JStr ".linkedin.com") (c !! "domain")]>
      (<["value" := value]> (<["name" := name]> ∅)) in
  copy_if_present "httpOnly" c
    (copy_if_present "secure" c
       (copy_if_present "path" c base)).

(** The body of the [for cookie in cookies] loop with its [try]/[except]. *)
Definition add_one_cookie (c : cookie) (added_count : nat) : M St nat :=
  try_except
    (name <- subscript c "name" ;;
     value <- subscript c "value" ;;
     driver_add_cookie (cookie_to_add c name value) ;;
     ret (added_count + 1))
    (fun _ => print WARNING "Could not add cookie" ;; ret added_count).

Fixpoint add_cookies_from (cookies : list cookie) (added_count : nat) : M St nat :=
  match cookies with
  | [] => ret added_count
  | c :: rest =>
      n <- add_one_cookie c added_count ;;
      add_cookies_from rest n
  end.

Definition add_cookies_to_driver (cookies : list cookie) : M St nat :=
  add_cookies_from cookies 0.

Definition login_with_cookies (cookie_file : option string) : M St bool :=
  let path := path_or_default cookie_file in
  try_except
    (driver_get config.BASE_URL ;;
     print INFO "Loading cookies from" ;;
     cookies <- load_cookies_from_file (Some path) ;;
     print INFO "Found cookies in file" ;;
     _ <- add_cookies_to_driver cookies ;;
     print INFO "Added cookies to browser" ;;
     driver_refresh ;;
     driver_get (config.BASE_URL +:+ "/feed") ;;
     current_url <- driver_current_url ;;
     if str_in "/login" current_url || str_in "/authwall" current_url then
       print WARNING "Cookie login failed - redirected to login page" ;;
       ret false
     else
       print INFO "Cookie login successful!" ;;
       ret true)
    (fun e =>
       if is_file_not_found e then
         print ERROR "Cookie file not found" ;; ret false
       else
         print ERROR "Cookie login failed" ;; ret false).

Definition cookies_exist (file_path : option string) : M St bool :=
  os_path_exists (path_or_default file_path).

(** *** utilities/browser_setup.py

    Driver provisioning is two commands to the world: [get_driver_path]
    installs the driver binary and returns its path; then the service and
    the browser are started and the two timeouts of the driver set. *)
Definition get_driver_path : M St string :=
  emit EvInstall ;; ask (w_install W).

Definition initialize_driver : M St unit :=
  print INFO "Detected OS" ;;
  print INFO "Setting up ChromeDriver in 'driver/' directory..." ;;
  _ <- get_driver_path ;;
  print INFO "ChromeDriver path" ;;
  emit EvStart ;;
  ask (w_start W) ;;
  print INFO "WebDriver initialized successfully".

(** *** main.py *)

Definition authenticate : M St bool :=
  print INFO "Authentication method" ;;
  if String.eqb (config.AUTH_METHOD cfg) "cookie" then
    present <- cookies_exist None ;;
    if negb present then
      print ERROR "Cookie file not found" ;;
      ret false
    else
      print INFO "Using cookie file" ;;
      login_with_cookies None
  else if String.eqb (config.AUTH_METHOD cfg) "credentials" then
    if negb (truthy_str (config.LINKEDIN_USERNAME cfg))
       || negb (truthy_str (config.LINKEDIN_PASSWORD cfg)) then
      print ERROR "LINKEDIN_USERNAME and LINKEDIN_PASSWORD must be set in .env" ;;
      ret false
    else
      print INFO "Logging in as" ;;
      navigate_to_login ;;
      success <- login (config.LINKEDIN_USERNAME cfg) (config.LINKEDIN_PASSWORD cfg) ;;
      (if negb success then
         _ <- get_error_message ;;
         print ERROR "Login failed"
       else ret tt) ;;
      ret success
  else
    print ERROR "Invalid AUTH_METHOD" ;;
    print INFO "Valid options: 'cookie' or 'credentials'" ;;
    ret false.

(** The [finally] clause of [run_job_automation], taken when [driver] has
    been assigned. *)
Definition cleanup : M St unit :=
  print CLEANUP "Closing browser..." ;;
  try_except
    (driver_quit ;;
     print CLEANUP "Browser closed successfully")
    (fun _ => print CLEANUP "Warning").

(** [except Exception as e: print(...); raise]. *)
Definition report_and_reraise {A : Type} (m : M St A) : M St A :=
  try_except m (fun e => print ERROR "Automation failed" ;; raise e).

(** [for i, link in enumerate(easy_apply_links, 1): print(...)]. *)
Fixpoint print_links (links : list string) : M St unit :=
  match links with
  | [] => ret tt
  | link :: rest => print PLAIN link ;; print_links rest
  end.

(** Steps 2 to 5, the part of the [try] block that runs with [driver]
    assigned. *)
Definition automation_steps : M St (list string) :=
  print STEP "Authenticating to LinkedIn..." ;;
  ok <- authenticate ;;
  (if negb ok then raise (PyException "Authentication failed") else ret tt) ;;
  print INFO "Authentication successful!" ;;
  print STEP "Navigating to job search page..." ;;
  navigate_to_jobs ;;
  print INFO "Searching for" ;;
  search_jobs (config.DEFAULT_JOB_KEYWORDS cfg) (config.DEFAULT_JOB_LOCATION cfg) ;;
  print STEP "Applying Easy Apply filter..." ;;
  apply_filters true ;;
  print STEP "Extracting Easy Apply job links..." ;;
  easy_apply_links <- get_easy_apply_job_links ;;
  print SUCCESS "Found Easy Apply jobs!" ;;
  print PLAIN "--------------------------------------------------" ;;
  print_links easy_apply_links ;;
  print PLAIN "--------------------------------------------------" ;;
  ret easy_apply_links.

(** Step 1, the part of the [try] block that runs with [driver] still
    [None]. *)
Definition startup : M St unit :=
  print PLAIN "==================================================" ;;
  print PLAIN "LinkedIn Job Automator" ;;
  print PLAIN "==================================================" ;;
  print INFO "Operating System" ;;
  print STEP "Initializing WebDriver..." ;;
  initialize_driver.

(** [driver] is [None] until [initialize_driver] has returned, so the
    [finally] clause quits the browser exactly on the paths that passed
    step 1. *)
Definition run_job_automation : M St (list string) :=
  report_and_reraise startup ;;
  try_finally (report_and_reraise automation_steps) cleanup.

(** The process exit code; [KeyboardInterrupt] is outside the model. *)
Definition main : M St nat :=
  try_except
    (_ <- run_job_automation ;;
     print COMPLETE "Total jobs found" ;;
     ret 0)
    (fun _ => print FATAL "failure" ;; ret 1).

End Program.

(** * A synthetic site

    A small deterministic browser and file system: result pages made of
    cards, a next-page control on every page but the last, a cookie jar, a
    login form and a store of cookie files.  It is one [World] among all
    those the general theorems range over, and the one the statements about
    synthetic pages are made on. *)

Definition by_eqb (a b : By) : bool :=
  match a, b with
  | ID, ID | XPATH, XPATH => true
  | _, _ => false
  end.

Definition loc_eqb (a b : locator) : bool :=
  by_eqb (fst a) (fst b) && String.eqb (snd a) (snd b).

#[global] Instance json_eq_dec : EqDecision json.
Proof. solve_decision. Defined.

Module Site.

(** A result card: whether it carries the Easy Apply badge, and its title
    link: [None] when the link cannot be found, [Some None] when the anchor
    has no [href], [Some (Some u)] otherwise. *)
Record Card : Type := {
  badge : bool;
  title_href : option (option string)
}.

Record t : Type := {
  url : string;
  files : gmap string (option (list cookie));
  jar : list cookie;
  pages : list (list Card);
  has_filter : bool;
  click_fails : bool;
  submit_target : option string;
  shows_error : bool
}.

Definition set_url (u : string) (st : t) : t :=
  {| url := u; files := files st; jar := jar st; pages := pages st;
     has_filter := has_filter st; click_fails := click_fails st;
     submit_target := submit_target st; shows_error := shows_error st |}.

Definition set_jar (j : list cookie) (st : t) : t :=
  {| url := url st; files := files st; jar := j; pages := pages st;
     has_filter := has_filter st; click_fails := click_fails st;
     submit_target := submit_target st; shows_error := shows_error st |}.

Definition set_pages (p : list (list Card)) (st : t) : t :=
  {| url := url st; files := files st; jar := jar st; pages := p;
     has_filter := has_filter st; click_fails := click_fails st;
     submit_target := submit_target st; shows_error := shows_error st |}.

(** The cards of the page being rendered. *)
Definition current (st : t) : list Card := hd [] (pages st).

Definition logged_in (st : t) : bool :=
  existsb (fun c => bool_decide (c !! "name" = Some (JStr "li_at"))) (jar st).

Definition FEED_URL : string := config.BASE_URL +:+ "/feed".

Definition get (u : string) (st : t) : result unit * t :=
  if String.eqb u FEED_URL && negb (logged_in st)
  then (Ok tt, set_url (config.BASE_URL +:+ "/login") st)
  else (Ok tt, set_url u st).

Definition add_cookie (c : cookie) (st : t) : result unit * t :=
  match c !! "domain" with
  | Some (JStr d) =>
      if str_in "linkedin.com" d then (Ok tt, set_jar (jar st ++ [c]) st)
      else (Raise (WebDriverException "invalid cookie domain"), st)
  | _ => (Raise (WebDriverException "invalid cookie domain"), st)
  end.

Definition displayed (st : t) (loc : locator) : bool :=
  if loc_eqb loc JOB_CARDS then truthy_list (current st)
  else if loc_eqb loc NEXT_PAGE_BUTTON then truthy_list (tl (pages st))
  else if loc_eqb loc EASY_APPLY_FILTER then has_filter st
  else if loc_eqb loc ERROR_MESSAGE then shows_error st
  else true.

Definition probe_at (c : condition) (loc : locator) (st : t) : probe * t :=
  (if displayed st loc then Hit (Root loc 0) else Miss, st).

Definition find_all (scope : option WebElement) (loc : locator) (st : t)
  : result (list WebElement) * t :=
  match scope with
  | None =>
      if loc_eqb loc JOB_CARDS
      then (Ok (map (Root JOB_CARDS) (seq 0 (length (current st)))), st)
      else (Ok [], st)
  | Some (Root l i) =>
      if loc_eqb l JOB_CARDS && loc_eqb loc EASY_APPLY_BADGE then
        match current st !! i with
        | Some c => (Ok (if badge c then [Child (Root l i) loc 0] else []), st)
        | None => (Raise StaleElementReferenceException, st)
        end
      else (Ok [], st)
  | Some (Child _ _ _) => (Ok [], st)
  end.

Definition find_one (scope : WebElement) (loc : locator) (st : t)
  : result WebElement * t :=
  match scope with
  | Root l i =>
      if loc_eqb l JOB_CARDS && loc_eqb loc JOB_TITLE_LINK then
        match current st !! i with
        | Some c =>
            match title_href c with
            | Some _ => (Ok (Child (Root l i) loc 0), st)
            | None => (Raise NoSuchElementException, st)
            end
        | None => (Raise StaleElementReferenceException, st)
        end
      else (Raise NoSuchElementException, st)
  | Child _ _ _ => (Raise NoSuchElementException, st)
  end.

Definition attribute (el : WebElement) (name : string) (st : t)
  : result (option string) * t :=
  match el with
  | Child (Root l i) l' _ =>
      if loc_eqb l JOB_CARDS && loc_eqb l' JOB_TITLE_LINK && String.eqb name "href" then
        match current st !! i with
        | Some c => (Ok (default None (title_href c)), st)
        | None => (Raise StaleElementReferenceException, st)
        end
      else (Ok None, st)
  | _ => (Ok None, st)
  end.

Definition click (el : WebElement) (st : t) : result unit * t :=
  match el with
  | Root l _ =>
      if loc_eqb l NEXT_PAGE_BUTTON then (Ok tt, set_pages (tl (pages st)) st)
      else if loc_eqb l LOGIN_BUTTON then
        (Ok tt, set_url (default (url st) (submit_target st)) st)
      else if loc_eqb l EASY_APPLY_FILTER && click_fails st then
        (Raise (WebDriverException "element click intercepted"), st)
      else (Ok tt, st)
  | Child _ _ _ => (Ok tt, st)
  end.

Definition read_file (path : string) (st : t) : result (list cookie) :=
  match files st !! path with
  | Some (Some cookies) => Ok cookies
  | Some None => Raise JSONDecodeError
  | None => Raise (FileNotFoundError path)
  end.

Definition site : World t := {|
  w_install := fun st => (Ok "driver/chromedriver", st);
  w_start := fun st => (Ok tt, st);
  w_get := get;
  w_refresh := fun st => (Ok tt, st);
  w_current_url := fun st => (Ok (url st), st);
  w_add_cookie := add_cookie;
  w_quit := fun st => (Ok tt, st);
  w_probe := probe_at;
  w_find_elements := find_all;
  w_find_element := find_one;
  w_clear := fun _ st => (Ok tt, st);
  w_send_keys := fun _ _ st => (Ok tt, st);
  w_click := click;
  w_get_attribute := attribute;
  w_text := fun _ st => (Ok "Please enter a valid username", st);
  w_sleep := fun _ st => st;
  w_exists := fun path st => bool_decide (is_Some (files st !! path));
  w_read_json := read_file
|}.

(** The links a reader of one page is expected to collect: the [href] of
    every badged card whose title link has a non-empty one. *)
Definition card_links (c : Card) : list string :=
  if badge c then
    match title_href c with
    | Some (Some u) => if truthy_str u then [u] else []
    | _ => []
    end
  else [].

Definition qualifying (page : list Card) : list string :=
  flat_map card_links page.

(** A stored session: the authentication cookie and a preference cookie. *)
Definition li_at : cookie :=
  <["name" := JStr "li_at"]> (<["value" := JStr "AQEDAT"]>
    (<["domain" := JStr ".www.linkedin.com"]> (<["path" := JStr "/"]>
      (<["secure" := JBool true]> (<["httpOnly" := JBool true]>
        (<["sameSite" := JStr "None"]> ∅)))))).

Definition lang : cookie :=
  <["name" := JStr "lang"]> (<["value" := JStr "v=2&lang=en-us"]> ∅).

Definition no_value : cookie :=
  <["name" := JStr "bcookie"]> (<["domain" := JStr ".linkedin.com"]> ∅).

Definition no_name : cookie :=
  <["value" := JStr "orphan"]> ∅.

Definition foreign : cookie :=
  <["name" := JStr "sid"]> (<["value" := JStr "1"]>
    (<["domain" := JStr ".example.org"]> ∅)).

(** A browser that has not been started, on a machine holding the cookie
    file [cookie.json], facing a search with the given result pages. *)
Definition fresh (result_pages : list (list Card)) : Session t :=
  MkSession
    {| url := "about:blank";
       files := <["cookie.json" := Some [li_at; no_value; lang]]> ∅;
       jar := [];
       pages := result_pages;
       has_filter := true;
       click_fails := false;
       submit_target := None;
       shows_error := false |}
    [].

Definition by_cookie : config.t := {|
  config.AUTH_METHOD := "cookie";
  config.COOKIE_FILE_PATH := "cookie.json";
  config.LINKEDIN_USERNAME := "";
  config.LINKEDIN_PASSWORD := "";
  config.DEFAULT_JOB_KEYWORDS := "Software Engineer";
  config.DEFAULT_JOB_LOCATION := "Remote"
|}.

Definition by_credentials : config.t := {|
  config.AUTH_METHOD := "credentials";
  config.COOKIE_FILE_PATH := "cookie.json";
  config.LINKEDIN_USERNAME := "ada@example.org";
  config.LINKEDIN_PASSWORD := "correct horse";
  config.DEFAULT_JOB_KEYWORDS := "Backend Engineer";
  config.DEFAULT_JOB_LOCATION := ""
|}.

(** The same machine without the cookie file. *)
Definition without_cookie_file : Session t :=
  MkSession
    {| url := "about:blank"; files := ∅; jar := []; pages := [];
       has_filter := true; click_fails := false;
       submit_target := None; shows_error := false |}
    [].

(** A browser showing the login form; submitting it leads to [target], or
    nowhere. *)
Definition at_login (target : option string) (error_shown : bool) : Session t :=
  MkSession
    {| url := config.BASE_URL +:+ "/login"; files := ∅; jar := []; pages := [];
       has_filter := true; click_fails := false;
       submit_target := target; shows_error := error_shown |}
    [].

(** A browser showing search results, with or without a filter toggle,
    whose activation may fail. *)
Definition at_results (page : list Card) (toggle broken : bool) : Session t :=
  MkSession
    {| url := config.BASE_URL +:+ "/jobs"; files := ∅; jar := []; pages := [page];
       has_filter := toggle; click_fails := broken;
       submit_target := None; shows_error := false |}
    [].

(** Cards of the four kinds a page read meets. *)
Definition plain_card : Card :=
  {| badge := false; title_href := Some (Some "https://www.linkedin.com/jobs/view/7") |}.
Definition linkless_card : Card :=
  {| badge := true; title_href := None |}.
Definition hrefless_card : Card :=
  {| badge := true; title_href := Some None |}.
Definition easy_card : Card :=
  {| badge := true; title_href := Some (Some "https://www.linkedin.com/jobs/view/9") |}.

(** Where a challenged login lands. *)
Definition checkpoint : string := "https://www.linkedin.com/checkpoint/challenge/".

(** A page with one card of each kind. *)
Definition sample_page : list Card := [plain_card; linkless_card; hrefless_card; easy_card].

(** A page whose last card alone yields a link. *)
Definition mixed_page : list Card := [plain_card; linkless_card; easy_card].

End Site.

(** * Reasoning principles for the monad *)

Section MonadFacts.

Context {St : Type}.

Lemma bind_ok {A B : Type} (m : M St A) (k : A -> M St B) s a s1 :
  m s = (Ok a, s1) -> bind m k s = k a s1.
Proof. intros H. unfold bind. now rewrite H. Qed.

Lemma bind_raise {A B : Type} (m : M St A) (k : A -> M St B) s e s1 :
  m s = (Raise e, s1) -> bind m k s = (Raise e, s1).
Proof. intros H. unfold bind. now rewrite H. Qed.

Lemma try_except_ok {A : Type} (m : M St A) h s a s1 :
  m s = (Ok a, s1) -> try_except m h s = (Ok a, s1).
Proof. intros H. unfold try_except. now rewrite H. Qed.

Lemma try_except_raise {A : Type} (m : M St A) h s e s1 :
  m s = (Raise e, s1) -> try_except m h s = h e s1.
Proof. intros H. unfold try_except. now rewrite H. Qed.

(** A computation that returns normally from every state. *)
Definition never_raises {A : Type} (m : M St A) : Prop :=
  forall s, exists a s', m s = (Ok a, s').

Lemma never_raises_ret {A : Type} (a : A) : never_raises (ret (St := St) a).
Proof. intros s. now exists a, s. Qed.

Lemma never_raises_emit ev : never_raises (emit (St := St) ev).
Proof. intros s. unfold emit. eauto. Qed.

Lemma never_raises_bind {A B : Type} (m : M St A) (k : A -> M St B) :
  never_raises m -> (forall a, never_raises (k a)) -> never_raises (bind m k).
Proof.
  intros Hm Hk s. destruct (Hm s) as (a & s1 & E).
  rewrite (bind_ok _ _ _ _ _ E). apply Hk.
Qed.

Lemma never_raises_try_except {A : Type} (m : M St A) (h : exn -> M St A) :
  (forall e, never_raises (h e)) -> never_raises (try_except m h).
Proof.
  intros Hh s. unfold try_except.
  destruct (m s) as [[a | e] s1]; [eauto | apply Hh].
Qed.

Lemma never_raises_if {A : Type} (b : bool) (m1 m2 : M St A) :
  never_raises m1 -> never_raises m2 -> never_raises (if b then m1 else m2).
Proof. now destruct b. Qed.

(** [emits P m]: whatever happens, [m] only appends to the log, and every
    command it appends satisfies [P]. *)
Definition emits {A : Type} (P : event -> Prop) (m : M St A) : Prop :=
  forall s, exists tr, log (snd (m s)) = log s ++ tr /\ Forall P tr.

Lemma emits_ret {A : Type} P (a : A) : emits P (ret (St := St) a).
Proof. intros s. exists []. cbn. now rewrite app_nil_r. Qed.

Lemma emits_raise {A : Type} P e : emits P (raise (St := St) (A := A) e).
Proof. intros s. exists []. cbn. now rewrite app_nil_r. Qed.

Lemma emits_emit (P : event -> Prop) ev : P ev -> emits P (emit (St := St) ev).
Proof. intros H s. exists [ev]. cbn. split; [reflexivity | now constructor]. Qed.

Lemma emits_ask {A : Type} P (h : St -> result A * St) : emits P (ask h).
Proof.
  intros s. exists []. unfold ask. destruct (h (world s)) as [r w]. cbn.
  now rewrite app_nil_r.
Qed.

Lemma emits_bind {A B : Type} P (m : M St A) (k : A -> M St B) :
  emits P m -> (forall a, emits P (k a)) -> emits P (bind m k).
Proof.
  intros Hm Hk s. destruct (Hm s) as (t1 & E1 & F1). unfold bind.
  destruct (m s) as [[a | e] s1]; cbn in E1.
  - destruct (Hk a s1) as (t2 & E2 & F2). exists (t1 ++ t2).
    rewrite E2, E1, app_assoc. split; [reflexivity | now apply Forall_app].
  - exists t1. now split.
Qed.

Lemma emits_try_except {A : Type} P (m : M St A) (h : exn -> M St A) :
  emits P m -> (forall e, emits P (h e)) -> emits P (try_except m h).
Proof.
  intros Hm Hh s. destruct (Hm s) as (t1 & E1 & F1). unfold try_except.
  destruct (m s) as [[a | e] s1]; cbn in E1.
  - exists t1. now split.
  - destruct (Hh e s1) as (t2 & E2 & F2). exists (t1 ++ t2).
    rewrite E2, E1, app_assoc. split; [reflexivity | now apply Forall_app].
Qed.

Lemma emits_try_finally {A : Type} P (m : M St A) (fin : M St unit) :
  emits P m -> emits P fin -> emits P (try_finally m fin).
Proof.
  intros Hm Hf s. destruct (Hm s) as (t1 & E1 & F1). unfold try_finally.
  destruct (m s) as [r s1]; cbn in E1.
  destruct (Hf s1) as (t2 & E2 & F2). exists (t1 ++ t2).
  destruct (fin s1) as [[u | e] s2]; cbn in *;
    rewrite E2, E1, app_assoc; (split; [reflexivity | now apply Forall_app]).
Qed.

Lemma emits_if {A : Type} P (b : bool) (m1 m2 : M St A) :
  emits P m1 -> emits P m2 -> emits P (if b then m1 else m2).
Proof. now destruct b. Qed.

Lemma emits_weaken {A : Type} (P Q : event -> Prop) (m : M St A) :
  (forall ev, P ev -> Q ev) -> emits P m -> emits Q m.
Proof.
  intros HPQ Hm s. destruct (Hm s) as (tr & E & F). exists tr.
  split; [exact E | eapply Forall_impl; eauto].
Qed.

End MonadFacts.

(** * Facts about the program, for every world *)

Ltac total :=
  repeat first
    [ apply never_raises_ret
    | apply never_raises_emit
    | apply never_raises_try_except; intros
    | apply never_raises_bind; intros
    | apply never_raises_if ].

Section ProgramFacts.

Context {St : Type}.
Variable W : World St.
Variable cfg : config.t.

(** The session [s] after one more logged command. *)
Definition logged (ev : event) (s : Session St) : Session St :=
  MkSession (world s) (log s ++ [ev]).

Lemma print_eq lvl msg (s : Session St) :
  print lvl msg s = (Ok tt, logged (EvPrint lvl msg) s).
Proof. reflexivity. Qed.

Lemma never_raises_print lvl msg : never_raises (print (St := St) lvl msg).
Proof. apply never_raises_emit. Qed.

Lemma never_raises_sleep n : never_raises (time_sleep W n).
Proof. intros s. unfold time_sleep, bind, emit. eauto. Qed.

Lemma never_raises_exists path : never_raises (os_path_exists W path).
Proof. intros s. unfold os_path_exists, bind, emit. eauto. Qed.

(** **** Failures absorbed where they occur *)

Lemma wait_for_url_change_total url timeout :
  never_raises (wait_for_url_change W url timeout).
Proof. unfold wait_for_url_change. total. Qed.

Lemma _wait_for_job_results_total : never_raises (_wait_for_job_results W).
Proof. unfold _wait_for_job_results. total. Qed.

Lemma get_job_cards_total : never_raises (get_job_cards W).
Proof. unfold get_job_cards. total. Qed.

Lemma read_card_total card acc : never_raises (read_card W card acc).
Proof. unfold read_card. total. Qed.

Lemma read_cards_total cards : forall acc, never_raises (read_cards W cards acc).
Proof.
  induction cards as [| card rest IH]; intros acc; cbn [read_cards].
  - apply never_raises_ret.
  - apply never_raises_bind; [apply read_card_total | intros; apply IH].
Qed.

Lemma get_easy_apply_job_links_total : never_raises (get_easy_apply_job_links W).
Proof.
  unfold get_easy_apply_job_links.
  apply never_raises_bind; [apply get_job_cards_total | intros cards].
  apply never_raises_bind; [apply never_raises_print | intros _].
  apply read_cards_total.
Qed.

Lemma go_to_next_page_total : never_raises (go_to_next_page W).
Proof. unfold go_to_next_page. total. Qed.

Lemma apply_filters_total easy_apply : never_raises (apply_filters W easy_apply).
Proof. unfold apply_filters. total. Qed.

Lemma get_error_message_total : never_raises (get_error_message W).
Proof. unfold get_error_message. total. Qed.

Lemma add_one_cookie_total c n : never_raises (add_one_cookie W c n).
Proof. unfold add_one_cookie. total. Qed.

Lemma add_cookies_from_total cookies : forall n, never_raises (add_cookies_from W cookies n).
Proof.
  induction cookies as [| c rest IH]; intros n; cbn [add_cookies_from].
  - apply never_raises_ret.
  - apply never_raises_bind; [apply add_one_cookie_total | intros; apply IH].
Qed.

Lemma login_with_cookies_total cookie_file :
  never_raises (login_with_cookies W cfg cookie_file).
Proof. unfold login_with_cookies. total. Qed.

Lemma cleanup_total : never_raises (cleanup W).
Proof. unfold cleanup. total. Qed.

Lemma main_total : never_raises (main W cfg).
Proof. unfold main. total. Qed.

End ProgramFacts.

(** * The result harvester *)

Section Harvest.

Context {St : Type}.
Variable W : World St.

(** What one card does to the accumulator, case by case. *)

Lemma read_card_no_badge card acc s s1 :
  el_find_elements W card EASY_APPLY_BADGE s = (Ok [], s1) ->
  read_card W card acc s = (Ok acc, s1).
Proof.
  intros H. unfold read_card, try_except.
  now rewrite (bind_ok _ _ _ _ _ H).
Qed.

Lemma read_card_badge_lookup_fails card acc s e s1 :
  el_find_elements W card EASY_APPLY_BADGE s = (Raise e, s1) ->
  read_card W card acc s = (Ok acc, s1).
Proof.
  intros H. unfold read_card, try_except.
  now rewrite (bind_raise _ _ _ _ _ H).
Qed.

Lemma read_card_link_lookup_fails card acc s badges s1 e s2 :
  el_find_elements W card EASY_APPLY_BADGE s = (Ok badges, s1) ->
  badges <> [] ->
  el_find_element W card JOB_TITLE_LINK s1 = (Raise e, s2) ->
  read_card W card acc s = (Ok acc, s2).
Proof.
  intros H Hne H1. unfold read_card, try_except.
  rewrite (bind_ok _ _ _ _ _ H).
  destruct badges as [| b bs]; [congruence | cbn [truthy_list]].
  now rewrite (bind_raise _ _ _ _ _ H1).
Qed.

Lemma read_card_href card acc s badges s1 link s2 href s3 :
  el_find_elements W card EASY_APPLY_BADGE s = (Ok badges, s1) ->
  badges <> [] ->
  el_find_element W card JOB_TITLE_LINK s1 = (Ok link, s2) ->
  el_get_attribute W link "href" s2 = (Ok href, s3) ->
  read_card W card acc s =
    (Ok (if truthy_attr href then acc ++ [default "" href] else acc), s3).
Proof.
  intros H Hne H1 H2. unfold read_card, try_except.
  rewrite (bind_ok _ _ _ _ _ H).
  destruct badges as [| b bs]; [congruence | cbn [truthy_list]].
  rewrite (bind_ok _ _ _ _ _ H1), (bind_ok _ _ _ _ _ H2).
  destruct href as [[| a u] |]; reflexivity.
Qed.

(** A card never shortens the accumulator, and what it appends is a
    non-empty string. *)
Lemma read_card_appends card acc s :
  exists more s',
    read_card W card acc s = (Ok (acc ++ more), s') /\
    Forall (fun u => u <> "") more.
Proof.
  unfold read_card, try_except.
  destruct (el_find_elements W card EASY_APPLY_BADGE s) as [[badges | e] s1] eqn:E1.
  2: { rewrite (bind_raise _ _ _ _ _ E1). exists [], s1. now rewrite app_nil_r. }
  rewrite (bind_ok _ _ _ _ _ E1).
  destruct badges as [| b bs]; cbn [truthy_list].
  { exists [], s1. now rewrite app_nil_r. }
  destruct (el_find_element W card JOB_TITLE_LINK s1) as [[link | e] s2] eqn:E2.
  2: { rewrite (bind_raise _ _ _ _ _ E2). exists [], s2. now rewrite app_nil_r. }
  rewrite (bind_ok _ _ _ _ _ E2).
  destruct (el_get_attribute W link "href" s2) as [[href | e] s3] eqn:E3.
  2: { rewrite (bind_raise _ _ _ _ _ E3). exists [], s3. now rewrite app_nil_r. }
  rewrite (bind_ok _ _ _ _ _ E3).
  destruct href as [[| a u] |]; cbn [truthy_str].
  - exists [], s3. now rewrite app_nil_r.
  - exists [String a u], s3. split; [reflexivity |].
    constructor; [discriminate | constructor].
  - exists [], s3. now rewrite app_nil_r.
Qed.

Lemma read_cards_appends cards : forall acc s,
  exists more s',
    read_cards W cards acc s = (Ok (acc ++ more), s') /\
    Forall (fun u => u <> "") more.
Proof.
  induction cards as [| card rest IH]; intros acc s; cbn [read_cards].
  - exists [], s. now rewrite app_nil_r.
  - destruct (read_card_appends card acc s) as (m1 & s1 & E1 & F1).
    rewrite (bind_ok _ _ _ _ _ E1).
    destruct (IH (acc ++ m1) s1) as (m2 & s2 & E2 & F2).
    exists (m1 ++ m2), s2. rewrite E2, app_assoc.
    split; [reflexivity | now apply Forall_app].
Qed.

Lemma get_job_cards_found s el s1 cards s2 :
  wait_until_present W JOB_CARDS s = (Ok el, s1) ->
  find_elements W JOB_CARDS s1 = (Ok cards, s2) ->
  get_job_cards W s = (Ok cards, s2).
Proof.
  intros Hw Hf. unfold get_job_cards, try_except.
  now rewrite (bind_ok _ _ _ _ _ Hw), Hf.
Qed.

Lemma get_easy_apply_job_links_reads s cards s1 :
  get_job_cards W s = (Ok cards, s1) ->
  get_easy_apply_job_links W s =
    read_cards W cards [] (logged (EvPrint INFO "Found job cards on page") s1).
Proof.
  intros H. unfold get_easy_apply_job_links.
  now rewrite (bind_ok _ _ _ _ _ H), (bind_ok _ _ _ _ _ (print_eq _ _ _)).
Qed.

(** C8.  A card without the Easy Apply badge adds no link, and neither does
    a badged card whose title-link lookup throws; in both cases the pass
    goes on with the remaining cards from the state the lookup left.  A
    badged card whose title link has a non-empty [href] adds that [href]
    at the end of the list, and the pass goes on likewise.  The page read
    is this pass over the cards found on the page, starting from the empty
    list, and it always returns a list. *)
Theorem unbadged_or_unreadable_card_contributes_nothing
    (card : WebElement) (rest : list WebElement) (acc : list string)
    (s : Session St) :
  (forall s1,
      el_find_elements W card EASY_APPLY_BADGE s = (Ok [], s1) ->
      read_cards W (card :: rest) acc s = read_cards W rest acc s1) /\
  (forall badges s1 e s2,
      el_find_elements W card EASY_APPLY_BADGE s = (Ok badges, s1) ->
      badges <> [] ->
      el_find_element W card JOB_TITLE_LINK s1 = (Raise e, s2) ->
      read_cards W (card :: rest) acc s = read_cards W rest acc s2) /\
  (exists more s', read_cards W (card :: rest) acc s = (Ok (acc ++ more), s')) /\
  (exists links s', get_easy_apply_job_links W s = (Ok links, s')) /\
  (forall badges s1 link s2 url s3,
      el_find_elements W card EASY_APPLY_BADGE s = (Ok badges, s1) ->
      badges <> [] ->
      el_find_element W card JOB_TITLE_LINK s1 = (Ok link, s2) ->
      el_get_attribute W link "href" s2 = (Ok (Some url), s3) ->
      url <> "" ->
      read_cards W (card :: rest) acc s = read_cards W rest (acc ++ [url]) s3) /\
  (forall e s1,
      el_find_elements W card EASY_APPLY_BADGE s = (Raise e, s1) ->
      read_cards W (card :: rest) acc s = read_cards W rest acc s1) /\
  (forall el s1 cards s2,
      wait_until_present W JOB_CARDS s = (Ok el, s1) ->
      find_elements W JOB_CARDS s1 = (Ok cards, s2) ->
      get_easy_apply_job_links W s =
        read_cards W cards [] (logged (EvPrint INFO "Found job cards on page") s2)).
Proof.
  split; [| split; [| split; [| split; [| split; [| split]]]]].
  - intros s1 H. cbn [read_cards].
    now rewrite (bind_ok _ _ _ _ _ (read_card_no_badge _ acc _ _ H)).
  - intros badges s1 e s2 H Hne H1. cbn [read_cards].
    now rewrite (bind_ok _ _ _ _ _ (read_card_link_lookup_fails _ acc _ _ _ _ _ H Hne H1)).
  - destruct (read_cards_appends (card :: rest) acc s) as (more & s' & E & _).
    eauto.
  - apply get_easy_apply_job_links_total.
  - intros badges s1 link s2 url s3 H Hne H1 H2 Hurl. cbn [read_cards].
    rewrite (bind_ok _ _ _ _ _ (read_card_href _ acc _ _ _ _ _ _ _ H Hne H1 H2)).
    destruct url as [| a u]; [congruence | reflexivity].
  - intros e s1 H. cbn [read_cards].
    now rewrite (bind_ok _ _ _ _ _ (read_card_badge_lookup_fails _ acc _ _ _ H)).
  - intros el s1 cards s2 Hw Hf.
    apply get_easy_apply_job_links_reads. eapply get_job_cards_found; eauto.
Qed.

(** C10.  The list returned by the page read holds no empty string: a badged
    card whose title link has no [href], or an empty one, leaves the
    accumulator as it was. *)
Theorem harvested_links_are_nonempty (s : Session St) :
  (exists links s',
      get_easy_apply_job_links W s = (Ok links, s') /\
      Forall (fun u => u <> "") links) /\
  (forall card acc s0 badges s1 link s2 href s3,
      el_find_elements W card EASY_APPLY_BADGE s0 = (Ok badges, s1) ->
      badges <> [] ->
      el_find_element W card JOB_TITLE_LINK s1 = (Ok link, s2) ->
      el_get_attribute W link "href" s2 = (Ok href, s3) ->
      href = None \/ href = Some "" ->
      read_card W card acc s0 = (Ok acc, s3)).
Proof.
  split.
  - unfold get_easy_apply_job_links.
    destruct (get_job_cards_total W s) as (cards & s1 & E1).
    rewrite (bind_ok _ _ _ _ _ E1), (bind_ok _ _ _ _ _ (print_eq _ _ _)).
    destruct (read_cards_appends cards [] (logged (EvPrint INFO "Found job cards on page") s1))
      as (more & s2 & E2 & F2).
    exists more, s2. split; [exact E2 | exact F2].
  - intros card acc s0 badges s1 link s2 href s3 H Hne H1 H2 Hfalsy.
    rewrite (read_card_href _ acc _ _ _ _ _ _ _ H Hne H1 H2).
    now destruct Hfalsy as [-> | ->].
Qed.

End Harvest.

(** * Cookie injection *)

Section Cookies.

Context {St : Type}.
Variable W : World St.

(** What injecting a credential set means, stated on the browser alone: a
    record without [name] or without [value] is passed over, a record the
    browser refuses is passed over, every other record reaches the browser;
    [n] counts the records the browser took. *)
Inductive injection : list cookie -> St -> nat -> St -> Prop :=
| injection_done w :
    injection [] w 0 w
| injection_missing_field c rest w n w' :
    c !! "name" = None \/ c !! "value" = None ->
    injection rest w n w' ->
    injection (c :: rest) w n w'
| injection_refused c rest name value e w w1 n w' :
    c !! "name" = Some name ->
    c !! "value" = Some value ->
    w_add_cookie W (cookie_to_add c name value) w = (Raise e, w1) ->
    injection rest w1 n w' ->
    injection (c :: rest) w n w'
| injection_taken c rest name value w w1 n w' :
    c !! "name" = Some name ->
    c !! "value" = Some value ->
    w_add_cookie W (cookie_to_add c name value) w = (Ok tt, w1) ->
    injection rest w1 n w' ->
    injection (c :: rest) w (S n) w'.

Lemma add_one_cookie_missing c n s :
  c !! "name" = None \/ c !! "value" = None ->
  add_one_cookie W c n s = (Ok n, logged (EvPrint WARNING "Could not add cookie") s).
Proof.
  intros H. unfold add_one_cookie, try_except, subscript, bind.
  destruct (c !! "name") as [name |] eqn:En; [| reflexivity].
  destruct H as [H | H]; [discriminate |]. now rewrite H.
Qed.

Lemma add_one_cookie_wellformed c n s name value :
  c !! "name" = Some name ->
  c !! "value" = Some value ->
  add_one_cookie W c n s =
    let sent := logged (EvAddCookie (cookie_to_add c name value)) s in
    match w_add_cookie W (cookie_to_add c name value) (world s) with
    | (Ok _, w1) => (Ok (n + 1), MkSession w1 (log sent))
    | (Raise _, w1) =>
        (Ok n, logged (EvPrint WARNING "Could not add cookie") (MkSession w1 (log sent)))
    end.
Proof.
  intros Hn Hv.
  unfold add_one_cookie, try_except, subscript, bind, driver_add_cookie, bind, emit, ask.
  rewrite Hn, Hv. cbn.
  now destruct (w_add_cookie W (cookie_to_add c name value) (world s)) as [[[] | e] w1].
Qed.

Lemma add_cookies_from_injects cookies : forall k s,
  exists n s',
    add_cookies_from W cookies k s = (Ok (k + n), s') /\
    injection cookies (world s) n (world s').
Proof.
  induction cookies as [| c rest IH]; intros k s; cbn [add_cookies_from].
  - exists 0, s. rewrite Nat.add_0_r. split; [reflexivity | constructor].
  - destruct (c !! "name") as [name |] eqn:En.
    + destruct (c !! "value") as [value |] eqn:Ev.
      * pose proof (add_one_cookie_wellformed c k s name value En Ev) as E.
        cbn zeta in E.
        destruct (w_add_cookie W (cookie_to_add c name value) (world s))
          as [[[] | e] w1] eqn:Ew.
        -- rewrite (bind_ok _ _ _ _ _ E).
           edestruct IH as (n & s' & E' & I'). rewrite E'. cbn [world] in I'.
           exists (S n), s'. split; [f_equal; f_equal; lia |].
           eapply injection_taken; eauto.
        -- rewrite (bind_ok _ _ _ _ _ E).
           edestruct IH as (n & s' & E' & I'). rewrite E'. cbn [world logged] in I'.
           exists n, s'. split; [reflexivity |].
           eapply injection_refused; eauto.
      * rewrite (bind_ok _ _ _ _ _ (add_one_cookie_missing c k s (or_intror Ev))).
        edestruct IH as (n & s' & E' & I'). rewrite E'. cbn [world logged] in I'.
        exists n, s'. split; [reflexivity |].
        apply injection_missing_field; [now right | exact I'].
    + rewrite (bind_ok _ _ _ _ _ (add_one_cookie_missing c k s (or_introl En))).
      edestruct IH as (n & s' & E' & I'). rewrite E'. cbn [world logged] in I'.
      exists n, s'. split; [reflexivity |].
      apply injection_missing_field; [now left | exact I'].
Qed.

(** The count of an injection never exceeds the number of records carrying
    both mandatory keys. *)
Definition well_formed (c : cookie) : bool :=
  match c !! "name", c !! "value" with
  | Some _, Some _ => true
  | _, _ => false
  end.

Lemma injection_bound cookies w n w' :
  injection cookies w n w' -> n <= length (filter (fun c => well_formed c = true) cookies).
Proof.
  induction 1 as [w | c rest w n w' Hm _ IH | c rest nm vl e w w1 n w' Hn Hv _ _ IH
                 | c rest nm vl w w1 n w' Hn Hv _ _ IH].
  - cbn. lia.
  - rewrite filter_cons_False; [exact IH |].
    unfold well_formed. destruct Hm as [-> | ->]; [discriminate |].
    destruct (c !! "name"); discriminate.
  - rewrite filter_cons_True; [cbn; lia |].
    unfold well_formed. now rewrite Hn, Hv.
  - rewrite filter_cons_True; [cbn; lia |].
    unfold well_formed. now rewrite Hn, Hv.
Qed.

(** C2.  Injecting a credential set always returns; the browser ends in the
    state reached by passing over every record that lacks [name] or [value]
    (and every record the browser refuses) and handing over all the others,
    and the count returned is the number of records the browser took. *)
Theorem add_cookies_counts_injected (cookies : list cookie) (s : Session St) :
  exists n s',
    add_cookies_to_driver W cookies s = (Ok n, s') /\
    injection cookies (world s) n (world s') /\
    n <= length (filter (fun c => well_formed c = true) cookies).
Proof.
  destruct (add_cookies_from_injects cookies 0 s) as (n & s' & E & I).
  exists n, s'. split; [exact E | split; [exact I |]].
  eapply injection_bound; eauto.
Qed.

(** The entries of the dict handed to the browser. *)
Lemma cookie_to_add_lookup (c : cookie) (name value : json) (k : string) :
  cookie_to_add c name value !! k =
    if String.eqb k "name" then Some name
    else if String.eqb k "value" then Some value
    else if String.eqb k "domain" then Some (default (JStr ".linkedin.com") (c !! "domain"))
    else if String.eqb k "path" || String.eqb k "secure" || String.eqb k "httpOnly"
    then c !! k
    else None.
Proof.
  unfold cookie_to_add, copy_if_present.
  destruct (String.eqb_spec k "name") as [-> | Hn];
    [destruct (c !! "path"), (c !! "secure"), (c !! "httpOnly"); now simplify_map_eq |].
  destruct (String.eqb_spec k "value") as [-> | Hv];
    [destruct (c !! "path"), (c !! "secure"), (c !! "httpOnly"); now simplify_map_eq |].
  destruct (String.eqb_spec k "domain") as [-> | Hd];
    [destruct (c !! "path"), (c !! "secure"), (c !! "httpOnly"); now simplify_map_eq |].
  destruct (String.eqb_spec k "path") as [-> | Hp];
    [destruct (c !! "path") eqn:?, (c !! "secure"), (c !! "httpOnly"); now simplify_map_eq |].
  destruct (String.eqb_spec k "secure") as [-> | Hs];
    [destruct (c !! "path"), (c !! "secure") eqn:?, (c !! "httpOnly"); now simplify_map_eq |].
  destruct (String.eqb_spec k "httpOnly") as [-> | Hh];
    [destruct (c !! "path"), (c !! "secure"), (c !! "httpOnly") eqn:?; now simplify_map_eq |].
  destruct (c !! "path"), (c !! "secure"), (c !! "httpOnly"); now simplify_map_eq.
Qed.

(** C9.  For a record with [name] and [value] and no [domain], the dict
    handed to the browser has the domain [.linkedin.com]; it has [path],
    [secure] and [httpOnly] exactly when the record has them, with the
    record's values; and it is the first thing the loop body sends. *)
Theorem missing_domain_defaults_to_linkedin
    (c : cookie) (name value : json) (n : nat) (s : Session St) :
  c !! "name" = Some name ->
  c !! "value" = Some value ->
  c !! "domain" = None ->
  let sent := cookie_to_add c name value in
  sent !! "name" = Some name /\
  sent !! "value" = Some value /\
  sent !! "domain" = Some (JStr ".linkedin.com") /\
  sent !! "path" = c !! "path" /\
  sent !! "secure" = c !! "secure" /\
  sent !! "httpOnly" = c !! "httpOnly" /\
  exists tail,
    log (snd (add_one_cookie W c n s)) = log s ++ EvAddCookie sent :: tail.
Proof.
  intros Hn Hv Hd sent. subst sent.
  rewrite !cookie_to_add_lookup, Hd. cbn.
  repeat (split; [reflexivity |]).
  rewrite (add_one_cookie_wellformed c n s name value Hn Hv). cbn zeta.
  destruct (w_add_cookie W (cookie_to_add c name value) (world s)) as [[[] | e] w1];
    cbn; eexists; rewrite <- ?app_assoc; reflexivity.
Qed.

End Cookies.

(** * The authenticator *)

Section Authenticator.

Context {St : Type}.
Variable W : World St.
Variable cfg : config.t.

Lemma path_or_default_again (file_path : option string) :
  path_or_default cfg (Some (path_or_default cfg file_path)) = path_or_default cfg file_path.
Proof.
  unfold path_or_default.
  destruct file_path as [p |].
  - destruct (truthy_str p) eqn:E; [now rewrite E |].
    now destruct (truthy_str (config.COOKIE_FILE_PATH cfg)).
  - now destruct (truthy_str (config.COOKIE_FILE_PATH cfg)).
Qed.

Lemma load_cookies_from_absent_file file_path s :
  w_exists W (path_or_default cfg file_path) (world s) = false ->
  load_cookies_from_file W cfg file_path s =
    (Raise (FileNotFoundError (path_or_default cfg file_path)),
     logged (EvExists (path_or_default cfg file_path)) s).
Proof.
  intros H. unfold load_cookies_from_file, os_path_exists, bind, emit. cbn.
  now rewrite H.
Qed.

Lemma login_with_cookies_absent_file cookie_file s :
  (forall w, w_exists W (path_or_default cfg cookie_file) w = false) ->
  exists s', login_with_cookies W cfg cookie_file s = (Ok false, s').
Proof.
  intros H. unfold login_with_cookies, try_except.
  destruct (driver_get W config.BASE_URL s) as [[[] | e] s1] eqn:E1.
  - rewrite (bind_ok _ _ _ _ _ E1), (bind_ok _ _ _ _ _ (print_eq _ _ _)).
    erewrite bind_raise.
    2: { apply load_cookies_from_absent_file. rewrite path_or_default_again. apply H. }
    cbn. eauto.
  - rewrite (bind_raise _ _ _ _ _ E1). destruct (is_file_not_found e); cbn; eauto.
Qed.

(** C3.  With the cookie method selected and no file at the configured
    path, [authenticate] returns [False] without raising and without a
    single command to the browser; [login_with_cookies], called on its own
    while the file stays absent, returns [False] as well, whatever the
    browser does. *)
Theorem cookie_auth_without_file_fails (s : Session St) :
  config.AUTH_METHOD cfg = "cookie" ->
  w_exists W (config.COOKIE_FILE_PATH cfg) (world s) = false ->
  (exists s',
      authenticate W cfg s = (Ok false, s') /\
      world s' = world s /\
      log s' = log s ++ [EvPrint INFO "Authentication method";
                         EvExists (config.COOKIE_FILE_PATH cfg);
                         EvPrint ERROR "Cookie file not found"]) /\
  ((forall w, w_exists W (config.COOKIE_FILE_PATH cfg) w = false) ->
   exists s', login_with_cookies W cfg None s = (Ok false, s')).
Proof.
  intros Hm Hx. split.
  - unfold authenticate. rewrite Hm. cbn [String.eqb Ascii.eqb Bool.eqb].
    unfold cookies_exist, os_path_exists, path_or_default, print, bind, emit, ret.
    cbn. rewrite Hx. cbn. eexists. repeat split.
    now rewrite <- !app_assoc.
  - intros Hall. apply login_with_cookies_absent_file. exact Hall.
Qed.

(** The part of [login] between reading the baseline location and waiting
    for it to change. *)
Definition fill_and_submit (username password : string) : M St unit :=
  enter_username W username ;;
  enter_password W password ;;
  click_login_button W.

Lemma login_eq username password s :
  login W username password s =
    match get_current_url W s with
    | (Ok login_url, s0) =>
        match fill_and_submit username password s0 with
        | (Ok _, s1) =>
            match wait_for_url_change W login_url 15 s1 with
            | (Ok url_changed, s2) =>
                if negb url_changed then (Ok false, s2)
                else _is_login_successful W s2
            | (Raise e, s2) => (Raise e, s2)
            end
        | (Raise e, s1) => (Raise e, s1)
        end
    | (Raise e, s0) => (Raise e, s0)
    end.
Proof.
  unfold login, fill_and_submit, bind.
  destruct (get_current_url W s) as [[login_url | e] s0]; [| reflexivity].
  destruct (enter_username W username s0) as [[[] | e] sa]; [| reflexivity].
  destruct (enter_password W password sa) as [[[] | e] sb]; [| reflexivity].
  destruct (click_login_button W sb) as [[[] | e] s1]; [| reflexivity].
  destruct (wait_for_url_change W login_url 15 s1) as [[changed | e] s2]; [| reflexivity].
  now destruct changed.
Qed.

Lemma _is_login_successful_marker s url w :
  w_current_url W (world s) = (Ok url, w) ->
  str_in "/login" url || str_in "/checkpoint" url = true ->
  _is_login_successful W s = (Ok false, MkSession w (log s ++ [EvCurrentUrl])).
Proof.
  intros Hu Hm.
  unfold _is_login_successful, get_current_url, driver_current_url, bind, emit, ask, ret.
  cbn. rewrite Hu. f_equal. f_equal.
  rewrite <- negb_orb. now rewrite Hm.
Qed.

(** In credentials mode [authenticate] returns what [login] returned: the
    attempt to read the inline error message cannot change it. *)
Lemma authenticate_returns_login_outcome s s0 b s1 :
  config.AUTH_METHOD cfg = "credentials" ->
  truthy_str (config.LINKEDIN_USERNAME cfg) = true ->
  truthy_str (config.LINKEDIN_PASSWORD cfg) = true ->
  navigate_to_login W
    (logged (EvPrint INFO "Logging in as")
       (logged (EvPrint INFO "Authentication method") s)) = (Ok tt, s0) ->
  login W (config.LINKEDIN_USERNAME cfg) (config.LINKEDIN_PASSWORD cfg) s0 = (Ok b, s1) ->
  exists s', authenticate W cfg s = (Ok b, s').
Proof.
  intros Hm Hu Hp Hnav Hlogin.
  unfold authenticate. rewrite Hm, Hu, Hp.
  cbn [String.eqb Ascii.eqb Bool.eqb negb orb].
  rewrite (bind_ok _ _ _ _ _ (print_eq _ _ _)), (bind_ok _ _ _ _ _ (print_eq _ _ _)).
  rewrite (bind_ok _ _ _ _ _ Hnav), (bind_ok _ _ _ _ _ Hlogin).
  destruct b; cbn [negb].
  - cbn. eauto.
  - destruct (get_error_message_total W s1) as (msg & s2 & E).
    unfold bind at 1. unfold bind at 1. rewrite E. cbn. eauto.
Qed.

(** C4.  Once the form has been submitted and the wait has returned, a
    location holding [/login] or [/checkpoint] makes [login] return
    [False]; and [authenticate] then returns [False] too, whatever the
    lookup of the inline error message does. *)
Theorem marker_in_location_means_failed
    (s : Session St) (login_url : string) (s0 s1 : Session St)
    (url_changed : bool) (s2 : Session St) (url : string) (w3 : St) :
  get_current_url W s = (Ok login_url, s0) ->
  fill_and_submit (config.LINKEDIN_USERNAME cfg) (config.LINKEDIN_PASSWORD cfg) s0 = (Ok tt, s1) ->
  wait_for_url_change W login_url 15 s1 = (Ok url_changed, s2) ->
  w_current_url W (world s2) = (Ok url, w3) ->
  str_in "/login" url || str_in "/checkpoint" url = true ->
  (exists s', login W (config.LINKEDIN_USERNAME cfg) (config.LINKEDIN_PASSWORD cfg) s = (Ok false, s')) /\
  (forall sa,
      config.AUTH_METHOD cfg = "credentials" ->
      truthy_str (config.LINKEDIN_USERNAME cfg) = true ->
      truthy_str (config.LINKEDIN_PASSWORD cfg) = true ->
      navigate_to_login W
        (logged (EvPrint INFO "Logging in as")
           (logged (EvPrint INFO "Authentication method") sa)) = (Ok tt, s) ->
      exists s', authenticate W cfg sa = (Ok false, s')).
Proof.
  intros Hbase Hfill Hwait Hurl Hmark.
  assert (Hlogin : exists s', login W (config.LINKEDIN_USERNAME cfg)
                                (config.LINKEDIN_PASSWORD cfg) s = (Ok false, s')).
  { rewrite login_eq, Hbase, Hfill, Hwait.
    destruct url_changed; cbn [negb]; [| eauto].
    rewrite (_is_login_successful_marker _ _ _ Hurl Hmark). eauto. }
  split; [exact Hlogin |].
  intros sa Hm Hu Hp Hnav. destruct Hlogin as (s' & Hlogin).
  eapply authenticate_returns_login_outcome; eauto.
Qed.

(** The browser reports [url] at each of the next [polls] evaluations of
    the navigation condition, one polling interval apart. *)
Fixpoint stays_at (url : string) (polls : nat) (w : St) : Prop :=
  match polls with
  | 0 => True
  | S n => exists w1, w_current_url W w = (Ok url, w1) /\ stays_at url n (w_sleep W 1 w1)
  end.

Lemma driver_current_url_eq s url w1 :
  w_current_url W (world s) = (Ok url, w1) ->
  driver_current_url W s = (Ok url, MkSession w1 (log s ++ [EvCurrentUrl])).
Proof. intros H. unfold driver_current_url, bind, emit, ask. cbn. now rewrite H. Qed.

Lemma time_sleep_eq ticks (s : Session St) :
  time_sleep W ticks s =
    (Ok tt, MkSession (w_sleep W ticks (world s)) (log s ++ [EvSleep ticks])).
Proof. reflexivity. Qed.

Lemma until_url_differs_times_out url n : forall s,
  stays_at url (S n) (world s) ->
  exists s',
    until_url_differs W (S n) url s = (Raise TimeoutException, s') /\
    log s' = log s ++ concat (repeat [EvCurrentUrl; EvSleep 1] n) ++ [EvCurrentUrl].
Proof.
  induction n as [| n IH]; intros s (w1 & Hu & Hrest).
  - cbn [until_url_differs].
    rewrite (bind_ok _ _ _ _ _ (driver_current_url_eq s url w1 Hu)), String.eqb_refl.
    cbn. eexists. split; reflexivity.
  - change (until_url_differs W (S (S n)) url)
      with (u <- driver_current_url W ;;
            if negb (String.eqb u url) then ret true
            else time_sleep W 1 ;; until_url_differs W (S n) url).
    rewrite (bind_ok _ _ _ _ _ (driver_current_url_eq s url w1 Hu)), String.eqb_refl.
    cbn [negb]. rewrite (bind_ok _ _ _ _ _ (time_sleep_eq 1 _)). cbn [world log].
    edestruct (IH (MkSession (w_sleep W 1 w1) ((log s ++ [EvCurrentUrl]) ++ [EvSleep 1])))
      as (s' & E & L); [exact Hrest |].
    rewrite E. exists s'. split; [reflexivity |].
    rewrite L. cbn. now rewrite <- !app_assoc.
Qed.

(** C5.  When the location read at every poll of the 15-unit wait is still
    the baseline, [login] returns [False] instead of raising, and the log
    after the click holds the polls of the wait and nothing more (31 reads
    of the location, a sleep between two consecutive ones, the last entry
    being the last read of the wait): the location is not read again for
    inspection. *)
Theorem no_navigation_means_failed
    (username password : string) (s : Session St) (login_url : string)
    (s0 s1 : Session St) :
  get_current_url W s = (Ok login_url, s0) ->
  fill_and_submit username password s0 = (Ok tt, s1) ->
  stays_at login_url (polls_within 15) (world s1) ->
  exists s',
    login W username password s = (Ok false, s') /\
    log s' = log s1 ++ concat (repeat [EvCurrentUrl; EvSleep 1] (2 * 15)) ++ [EvCurrentUrl].
Proof.
  intros Hbase Hfill Hstay.
  destruct (until_url_differs_times_out login_url (2 * 15) s1 Hstay) as (s' & E & L).
  exists s'. rewrite login_eq, Hbase, Hfill.
  unfold wait_for_url_change, try_except.
  change (polls_within 15) with (S (2 * 15)).
  rewrite (bind_raise _ _ _ _ _ E). cbn [ret]. now split.
Qed.

End Authenticator.

(** * The search and filter controller *)

Section Search.

Context {St : Type}.
Variable W : World St.

(** The commands of a wait: evaluations of its condition, and sleeps. *)
Definition waits_on (c : condition) (loc : locator) (ev : event) : Prop :=
  ev = EvProbe c loc \/ exists n, ev = EvSleep n.

Lemma probe_once_emits c loc : emits (waits_on c loc) (probe_once W c loc).
Proof.
  intros s. exists [EvProbe c loc]. unfold probe_once, bind, emit. cbn.
  destruct (w_probe W c loc (world s)) as [p w]. cbn.
  split; [reflexivity | constructor; [now left | constructor]].
Qed.

Lemma time_sleep_emits (P : event -> Prop) n :
  P (EvSleep n) -> emits P (time_sleep W n).
Proof.
  intros H s. exists [EvSleep n]. unfold time_sleep, bind, emit. cbn.
  split; [reflexivity | constructor; [exact H | constructor]].
Qed.

Lemma until_emits c loc polls : emits (waits_on c loc) (until W polls c loc).
Proof.
  induction polls as [| n IH]; cbn [until].
  - apply emits_raise.
  - apply emits_bind; [apply probe_once_emits | intros [el | | | e]].
    + apply emits_ret.
    + destruct n as [| n']; [apply emits_raise |].
      apply emits_bind; [| intros _; exact IH].
      apply time_sleep_emits. right. eauto.
    + apply emits_raise.
    + apply emits_raise.
Qed.

Lemma _wait_for_job_results_emits :
  emits (waits_on Present JOB_CARDS) (_wait_for_job_results W).
Proof.
  unfold _wait_for_job_results.
  apply emits_try_except; [| intros; apply emits_ret].
  apply emits_bind; [apply until_emits | intros _].
  apply emits_bind; [| intros _; apply emits_ret].
  apply time_sleep_emits. right. eauto.
Qed.

(** The commands [search_jobs] may issue when no location is given, [kw]
    being the element its first wait returned. *)
Definition keyword_field_only (kw : option WebElement) (ev : event) : Prop :=
  match ev with
  | EvProbe Visible loc => loc = SEARCH_KEYWORD_INPUT
  | EvProbe Present loc => loc = JOB_CARDS
  | EvSleep _ => True
  | EvClear el | EvSendKeys el _ => kw = Some el
  | _ => False
  end.

Lemma waits_on_keyword kw ev :
  waits_on Visible SEARCH_KEYWORD_INPUT ev -> keyword_field_only kw ev.
Proof. intros [-> | [n ->]]; cbn; auto. Qed.

Lemma waits_on_results kw ev :
  waits_on Present JOB_CARDS ev -> keyword_field_only kw ev.
Proof. intros [-> | [n ->]]; cbn; auto. Qed.

Lemma keyword_field_only_spares_location kw ev :
  keyword_field_only kw ev ->
  (forall c, ev <> EvProbe c SEARCH_LOCATION_INPUT) /\
  (forall el, ev <> EvClick el) /\
  (forall c, ev <> EvProbe c SEARCH_BUTTON).
Proof.
  destruct ev; cbn; try contradiction; intros H; repeat split; try discriminate.
  - intros c' E. injection E as -> ->. destruct c'; try contradiction; discriminate.
  - intros c' E. injection E as -> ->. destruct c'; try contradiction; discriminate.
Qed.

Lemma el_clear_log el s : log (snd (el_clear W el s)) = log s ++ [EvClear el].
Proof.
  unfold el_clear, bind, emit, ask. cbn.
  now destruct (w_clear W el (world s)) as [r w].
Qed.

Lemma el_send_keys_log el k s :
  log (snd (el_send_keys W el k s)) = log s ++ [EvSendKeys el k].
Proof.
  unfold el_send_keys, bind, emit, ask. cbn.
  now destruct (w_send_keys W el k (world s)) as [r w].
Qed.

Lemma el_click_log el s : log (snd (el_click W el s)) = log s ++ [EvClick el].
Proof.
  unfold el_click, bind, emit, ask. cbn.
  now destruct (w_click W el (world s)) as [r w].
Qed.

(** C6.  With an empty location, [search_jobs] issues no command on the
    location input and no click at all: besides its two waits, on the
    keyword input and on the result cards, it only clears and types into
    the element the first wait returned; when it returns, what it did is
    wait for the keyword input, clear it, type the keyword, press RETURN in
    it, and wait for results. *)
Theorem empty_location_leaves_location_input_untouched
    (keyword : string) (s : Session St) :
  let kw := match fst (wait_until_visible W SEARCH_KEYWORD_INPUT s) with
            | Ok el => Some el
            | Raise _ => None
            end in
  exists tr,
    log (snd (search_jobs W keyword "" s)) = log s ++ tr /\
    Forall (keyword_field_only kw) tr /\
    Forall (fun ev => (forall c, ev <> EvProbe c SEARCH_LOCATION_INPUT) /\
                      (forall el, ev <> EvClick el) /\
                      (forall c, ev <> EvProbe c SEARCH_BUTTON)) tr /\
    (forall s', search_jobs W keyword "" s = (Ok tt, s') ->
       exists el t1 t2,
         kw = Some el /\
         tr = t1 ++ [EvClear el; EvSendKeys el (Text keyword); EvSendKeys el RETURN] ++ t2 /\
         Forall (waits_on Visible SEARCH_KEYWORD_INPUT) t1 /\
         Forall (waits_on Present JOB_CARDS) t2).
Proof.
  cbn zeta.
  assert (Hspare : forall kw tr, Forall (keyword_field_only kw) tr ->
            Forall (fun ev => (forall c, ev <> EvProbe c SEARCH_LOCATION_INPUT) /\
                              (forall el, ev <> EvClick el) /\
                              (forall c, ev <> EvProbe c SEARCH_BUTTON)) tr).
  { intros kw tr H. eapply Forall_impl; [exact H |].
    intros ev. apply keyword_field_only_spares_location. }
  assert (Hstop : forall kw (r : result unit * Session St) tr e,
            log (snd r) = log s ++ tr -> Forall (keyword_field_only kw) tr ->
            fst r = Raise e ->
            exists tr,
              log (snd r) = log s ++ tr /\
              Forall (keyword_field_only kw) tr /\
              Forall (fun ev => (forall c, ev <> EvProbe c SEARCH_LOCATION_INPUT) /\
                                (forall el, ev <> EvClick el) /\
                                (forall c, ev <> EvProbe c SEARCH_BUTTON)) tr /\
              (forall s', r = (Ok tt, s') ->
                 exists el t1 t2,
                   kw = Some el /\
                   tr = t1 ++ [EvClear el; EvSendKeys el (Text keyword);
                               EvSendKeys el RETURN] ++ t2 /\
                   Forall (waits_on Visible SEARCH_KEYWORD_INPUT) t1 /\
                   Forall (waits_on Present JOB_CARDS) t2)).
  { intros kw [r s'] tr e L F E. cbn in *. subst r. exists tr.
    split; [exact L | split; [exact F | split; [eapply Hspare; eassumption |]]].
    intros s'' H. discriminate H. }
  unfold search_jobs. cbn [truthy_str].
  destruct (until_emits Visible SEARCH_KEYWORD_INPUT (polls_within config.EXPLICIT_WAIT) s)
    as (t1 & L1 & F1).
  fold (wait_until_visible W SEARCH_KEYWORD_INPUT) in L1.
  destruct (wait_until_visible W SEARCH_KEYWORD_INPUT s) as [[el | e] s1] eqn:E1;
    cbn [fst snd] in *.
  { rewrite (bind_ok _ _ _ _ _ E1).
    assert (F : Forall (keyword_field_only (Some el)) t1)
      by (eapply Forall_impl; [exact F1 |]; intros ev; apply waits_on_keyword).
    pose proof (el_clear_log el s1) as L2.
    destruct (el_clear W el s1) as [[[] | e] s2] eqn:E2; cbn [snd] in L2.
    2: { rewrite (bind_raise _ _ _ _ _ E2).
         apply (Hstop _ _ (t1 ++ [EvClear el]) e); cbn [fst snd]; [| | reflexivity].
         - now rewrite L2, L1, <- app_assoc.
         - apply Forall_app; split; [exact F | repeat constructor]. }
    rewrite (bind_ok _ _ _ _ _ E2).
    pose proof (el_send_keys_log el (Text keyword) s2) as L3.
    destruct (el_send_keys W el (Text keyword) s2) as [[[] | e] s3] eqn:E3; cbn [snd] in L3.
    2: { rewrite (bind_raise _ _ _ _ _ E3).
         apply (Hstop _ _ (t1 ++ [EvClear el; EvSendKeys el (Text keyword)]) e);
           cbn [fst snd]; [| | reflexivity].
         - rewrite L3, L2, L1, <- !app_assoc. reflexivity.
         - apply Forall_app; split; [exact F | repeat constructor]. }
    rewrite (bind_ok _ _ _ _ _ E3).
    rewrite (bind_ok (ret tt) _ s3 tt s3 eq_refl).
    pose proof (el_send_keys_log el RETURN s3) as L4.
    destruct (el_send_keys W el RETURN s3) as [[[] | e] s4] eqn:E4; cbn [snd] in L4.
    2: { rewrite (bind_raise _ _ _ _ _ E4).
         apply (Hstop _ _ (t1 ++ [EvClear el; EvSendKeys el (Text keyword);
                                  EvSendKeys el RETURN]) e);
           cbn [fst snd]; [| | reflexivity].
         - rewrite L4, L3, L2, L1, <- !app_assoc. reflexivity.
         - apply Forall_app; split; [exact F | repeat constructor]. }
    rewrite (bind_ok _ _ _ _ _ E4).
    destruct (_wait_for_job_results_emits s4) as (t2 & L5 & F5).
    destruct (_wait_for_job_results_total W s4) as (b & s5 & E5).
    rewrite E5 in L5. cbn [snd] in L5.
    rewrite (bind_ok _ _ _ _ _ E5). cbn [ret snd].
    exists (t1 ++ [EvClear el; EvSendKeys el (Text keyword); EvSendKeys el RETURN] ++ t2).
    assert (Fall : Forall (keyword_field_only (Some el))
              (t1 ++ [EvClear el; EvSendKeys el (Text keyword); EvSendKeys el RETURN] ++ t2)).
    { apply Forall_app; split; [exact F |].
      apply Forall_app; split; [repeat constructor |].
      eapply Forall_impl; [exact F5 |]. intros ev. apply waits_on_results. }
    split; [| split; [exact Fall | split; [eapply Hspare; eassumption |]]].
    - rewrite L5, L4, L3, L2, L1, <- !app_assoc. reflexivity.
    - intros s' _. exists el, t1, t2. repeat split; assumption. }
  rewrite (bind_raise _ _ _ _ _ E1).
  apply (Hstop _ _ t1 e); cbn [fst snd]; [exact L1 | | reflexivity].
  eapply Forall_impl; [exact F1 |]. intros ev. apply waits_on_keyword.
Qed.

(** A wait that is given at least one poll starts by evaluating its
    condition. *)
Lemma until_probes_first c loc n s :
  exists tr,
    log (snd (until W (S n) c loc s)) = log s ++ EvProbe c loc :: tr /\
    Forall (waits_on c loc) tr.
Proof.
  cbn [until]. unfold probe_once, bind at 1 2, emit. cbn [world log].
  destruct (w_probe W c loc (world s)) as [[el | | | e] w1]; cbn [fst snd].
  - exists []. cbn. split; [reflexivity | constructor].
  - destruct n as [| n']; [exists []; cbn; split; [reflexivity | constructor] |].
    destruct (until_emits c loc (S n')
                (MkSession (w_sleep W 1 w1) ((log s ++ [EvProbe c loc]) ++ [EvSleep 1])))
      as (tr & L & F).
    exists (EvSleep 1 :: tr). split.
    + rewrite (bind_ok _ _ _ _ _ (time_sleep_eq W 1 _)). cbn [world log].
      rewrite L. cbn [log]. now rewrite <- !app_assoc.
    + constructor; [right; eauto | exact F].
  - exists []. cbn. split; [reflexivity | constructor].
  - exists []. cbn. split; [reflexivity | constructor].
Qed.

(** [_wait_for_job_results] is the wait for a result card to be present,
    followed, when a card is there, by the settling delay. *)
Lemma _wait_for_job_results_eq s :
  _wait_for_job_results W s =
    match wait_until_present W JOB_CARDS s with
    | (Ok _, sa) => (Ok true, MkSession (w_sleep W 2 (world sa)) (log sa ++ [EvSleep 2]))
    | (Raise _, sa) => (Ok false, sa)
    end.
Proof.
  unfold _wait_for_job_results, try_except, bind.
  now destruct (wait_until_present W JOB_CARDS s) as [[el | e] sa].
Qed.

Lemma _wait_for_job_results_probes s :
  exists rendered s' tr,
    _wait_for_job_results W s = (Ok rendered, s') /\
    log s' = log s ++ EvProbe Present JOB_CARDS :: tr /\
    Forall (waits_on Present JOB_CARDS) tr /\
    (rendered = true <-> exists el sa, wait_until_present W JOB_CARDS s = (Ok el, sa)).
Proof.
  rewrite _wait_for_job_results_eq.
  destruct (until_probes_first Present JOB_CARDS (2 * config.EXPLICIT_WAIT) s)
    as (tr & L & F).
  change (until W (S (2 * config.EXPLICIT_WAIT)) Present JOB_CARDS s)
    with (wait_until_present W JOB_CARDS s) in L.
  destruct (wait_until_present W JOB_CARDS s) as [[el | e] sa]; cbn [snd] in L.
  - exists true, (MkSession (w_sleep W 2 (world sa)) (log sa ++ [EvSleep 2])),
      (tr ++ [EvSleep 2]).
    split; [reflexivity | split; [| split]].
    + cbn [log]. rewrite L, <- app_assoc. reflexivity.
    + apply Forall_app; split; [exact F | constructor; [right; eauto | constructor]].
    + split; [eauto | reflexivity].
  - exists false, sa, tr.
    split; [reflexivity | split; [exact L | split; [exact F |]]].
    split; [discriminate | intros (el & sb & H); discriminate H].
Qed.

(** C7.  [apply_filters] always returns normally, and it starts by
    evaluating the clickability of the filter toggle.  When the wait for
    the toggle fails, or the click on it throws, nothing more is done than
    printing one warning.  When both succeed, the toggle has been clicked,
    the results have been waited for again (the presence of a result card
    is evaluated at least once after the click, and the wait reports
    [True] exactly when a card showed up), and one INFO line is printed. *)
Theorem filter_failure_is_absorbed (s : Session St) :
  (exists s', apply_filters W true s = (Ok tt, s')) /\
  (forall e s1,
      wait_until_clickable W EASY_APPLY_FILTER s = (Raise e, s1) ->
      apply_filters W true s =
        (Ok tt, logged (EvPrint WARNING "Could not apply Easy Apply filter") s1)) /\
  (forall btn s1 e s2,
      wait_until_clickable W EASY_APPLY_FILTER s = (Ok btn, s1) ->
      el_click W btn s1 = (Raise e, s2) ->
      apply_filters W true s =
        (Ok tt, logged (EvPrint WARNING "Could not apply Easy Apply filter") s2) /\
      log s2 = log s1 ++ [EvClick btn]) /\
  (forall btn s1 s2,
      wait_until_clickable W EASY_APPLY_FILTER s = (Ok btn, s1) ->
      el_click W btn s1 = (Ok tt, s2) ->
      exists rendered s3 tr,
        _wait_for_job_results W s2 = (Ok rendered, s3) /\
        log s2 = log s1 ++ [EvClick btn] /\
        apply_filters W true s =
          (Ok tt, logged (EvPrint INFO "Easy Apply filter applied successfully") s3) /\
        log s3 = log s2 ++ EvProbe Present JOB_CARDS :: tr /\
        Forall (waits_on Present JOB_CARDS) tr /\
        (rendered = true <->
           exists el sa, wait_until_present W JOB_CARDS s2 = (Ok el, sa))) /\
  (exists tr,
      log (snd (wait_until_clickable W EASY_APPLY_FILTER s))
        = log s ++ EvProbe Clickable EASY_APPLY_FILTER :: tr /\
      Forall (waits_on Clickable EASY_APPLY_FILTER) tr).
Proof.
  split; [destruct (apply_filters_total W true s) as ([] & s' & E); eauto |].
  split; [| split; [| split]].
  - unfold apply_filters, try_except.
    intros e s1 H. now rewrite (bind_raise _ _ _ _ _ H).
  - unfold apply_filters, try_except.
    intros btn s1 e s2 H Hc. rewrite (bind_ok _ _ _ _ _ H), (bind_raise _ _ _ _ _ Hc).
    split; [reflexivity |].
    pose proof (el_click_log btn s1) as L. now rewrite Hc in L.
  - unfold apply_filters, try_except.
    intros btn s1 s2 H Hc.
    destruct (_wait_for_job_results_probes s2) as (rendered & s3 & tr & E & L & F & R).
    exists rendered, s3, tr. split; [exact E | split; [| split; [| auto]]].
    + pose proof (el_click_log btn s1) as Lc. now rewrite Hc in Lc.
    + now rewrite (bind_ok _ _ _ _ _ H), (bind_ok _ _ _ _ _ Hc), (bind_ok _ _ _ _ _ E).
  - apply (until_probes_first Clickable EASY_APPLY_FILTER (2 * config.EXPLICIT_WAIT) s).
Qed.

End Search.

(** * Pagination *)

(** The commands that look an element up by locator. *)
Definition addresses (loc : locator) (ev : event) : Prop :=
  match ev with
  | EvProbe _ l | EvFindElements _ l | EvFindElement _ l => l = loc
  | _ => False
  end.

Section Pagination.

Context {St : Type}.
Variable W : World St.
Variable cfg : config.t.

(** Commands that leave the next-page control alone. *)
Definition spares_next_page (ev : event) : Prop :=
  ~ addresses NEXT_PAGE_BUTTON ev.

Lemma sleep_spares n : emits spares_next_page (time_sleep W n).
Proof. apply time_sleep_emits. intros H. exact H. Qed.

Lemma until_spares c loc polls :
  loc <> NEXT_PAGE_BUTTON -> emits spares_next_page (until W polls c loc).
Proof.
  intros Hne. eapply emits_weaken; [| apply until_emits].
  intros ev [-> | [n ->]]; unfold spares_next_page; cbn; [exact Hne | tauto].
Qed.

Lemma until_url_differs_spares url polls :
  emits spares_next_page (until_url_differs W polls url).
Proof.
  induction polls as [| n IH]; cbn [until_url_differs].
  - apply emits_raise.
  - apply emits_bind.
    + apply emits_bind; [apply emits_emit; intros H; exact H | intros _; apply emits_ask].
    + intros u. apply emits_if; [apply emits_ret |].
      destruct n as [| n']; [apply emits_raise |].
      apply emits_bind; [apply sleep_spares | intros _; exact IH].
Qed.

Lemma exists_spares path : emits spares_next_page (os_path_exists W path).
Proof.
  intros s. exists [EvExists path]. unfold os_path_exists, bind, emit. cbn.
  split; [reflexivity | constructor; [intros H; exact H | constructor]].
Qed.

Lemma read_json_spares path : emits spares_next_page (read_json W path).
Proof.
  intros s. exists [EvRead path]. unfold read_json, bind, emit. cbn.
  split; [reflexivity | constructor; [intros H; exact H | constructor]].
Qed.

(** One step of the syntax-directed proof that a computation spares the
    next-page control. *)
Ltac spares_step :=
  first
    [ apply emits_ret
    | apply emits_raise
    | apply emits_ask
    | apply sleep_spares
    | apply exists_spares
    | apply read_json_spares
    | apply until_url_differs_spares
    | apply until_spares; discriminate
    | apply emits_emit; unfold spares_next_page; cbn; first [tauto | discriminate]
    | apply emits_bind; [| intros ?]
    | apply emits_try_except; [| intros ?]
    | apply emits_try_finally
    | apply emits_if
    | match goal with
      | |- emits _ (match ?x with _ => _ end) => destruct x
      end ].

Ltac spares := repeat spares_step.

Lemma read_cards_spares cards : forall acc, emits spares_next_page (read_cards W cards acc).
Proof.
  induction cards as [| card rest IH]; intros acc; cbn [read_cards].
  - apply emits_ret.
  - apply emits_bind; [| intros links; apply IH].
    unfold read_card, el_find_elements, el_find_element, el_get_attribute. spares.
Qed.

Lemma add_cookies_from_spares cookies : forall n,
  emits spares_next_page (add_cookies_from W cookies n).
Proof.
  induction cookies as [| c rest IH]; intros n; cbn [add_cookies_from].
  - apply emits_ret.
  - apply emits_bind; [| intros k; apply IH].
    unfold add_one_cookie, subscript, driver_add_cookie, print. spares.
Qed.

Lemma print_links_spares links : emits spares_next_page (print_links (St := St) links).
Proof.
  induction links as [| link rest IH]; cbn [print_links].
  - apply emits_ret.
  - apply emits_bind; [| intros _; exact IH]. unfold print. spares.
Qed.

Lemma authenticate_spares : emits spares_next_page (authenticate W cfg).
Proof.
  unfold authenticate, cookies_exist, login_with_cookies, load_cookies_from_file,
    add_cookies_to_driver, navigate_to_login, navigate_to, login, get_error_message,
    _is_login_successful, get_current_url, enter_username, enter_password,
    click_login_button, wait_for_url_change, wait_until_visible, wait_until_clickable,
    driver_get, driver_refresh, driver_current_url, el_clear, el_send_keys, el_click,
    el_text, print.
  spares; try apply add_cookies_from_spares; spares.
Qed.

Lemma automation_steps_spares : emits spares_next_page (automation_steps W cfg).
Proof.
  unfold automation_steps.
  apply emits_bind; [unfold print; spares | intros _].
  apply emits_bind; [apply authenticate_spares | intros ok].
  unfold navigate_to_jobs, navigate_to, search_jobs, apply_filters,
    get_easy_apply_job_links, get_job_cards, _wait_for_job_results, find_elements,
    wait_until_visible, wait_until_clickable, wait_until_present,
    driver_get, driver_find_elements, el_clear, el_send_keys, el_click, print.
  spares; first [apply read_cards_spares | apply print_links_spares | idtac]; spares.
Qed.

Lemma run_job_automation_spares : emits spares_next_page (run_job_automation W cfg).
Proof.
  unfold run_job_automation, report_and_reraise.
  apply emits_bind; [| intros _].
  - unfold startup, initialize_driver, print. spares.
  - apply emits_try_finally.
    + apply emits_try_except; [apply automation_steps_spares | intros e].
      unfold print. spares.
    + unfold cleanup, driver_quit, print. spares.
Qed.

(** Steps 2 to 4 of [automation_steps], up to the announcement of step 5. *)
Definition steps_before_extraction : M St unit :=
  print STEP "Authenticating to LinkedIn..." ;;
  ok <- authenticate W cfg ;;
  (if negb ok then raise (PyException "Authentication failed") else ret tt) ;;
  print INFO "Authentication successful!" ;;
  print STEP "Navigating to job search page..." ;;
  navigate_to_jobs W ;;
  print INFO "Searching for" ;;
  search_jobs W (config.DEFAULT_JOB_KEYWORDS cfg) (config.DEFAULT_JOB_LOCATION cfg) ;;
  print STEP "Applying Easy Apply filter..." ;;
  apply_filters W true ;;
  print STEP "Extracting Easy Apply job links...".

(** Step 5: one page read, its report, and the return. *)
Definition extraction : M St (list string) :=
  easy_apply_links <- get_easy_apply_job_links W ;;
  print SUCCESS "Found Easy Apply jobs!" ;;
  print PLAIN "--------------------------------------------------" ;;
  print_links easy_apply_links ;;
  print PLAIN "--------------------------------------------------" ;;
  ret easy_apply_links.

Lemma bind_assoc {A B C : Type} (m : M St A) (k : A -> M St B) (h : B -> M St C) s :
  bind (bind m k) h s = bind m (fun a => bind (k a) h) s.
Proof. unfold bind. now destruct (m s) as [[a | e] s1]. Qed.

Lemma bind_ext {A B : Type} (m : M St A) (k k' : A -> M St B) s :
  (forall a s1, k a s1 = k' a s1) -> bind m k s = bind m k' s.
Proof. intros H. unfold bind. destruct (m s) as [[a | e] s1]; [apply H | reflexivity]. Qed.

Lemma automation_steps_split s :
  automation_steps W cfg s = bind steps_before_extraction (fun _ => extraction) s.
Proof.
  unfold automation_steps, steps_before_extraction, extraction.
  do 10 (rewrite bind_assoc; apply bind_ext; intros ? ?).
  reflexivity.
Qed.

Lemma print_links_total links : never_raises (print_links (St := St) links).
Proof.
  induction links as [| link rest IH]; cbn [print_links].
  - apply never_raises_ret.
  - apply never_raises_bind; [apply never_raises_print | intros _; exact IH].
Qed.

(** A run that gets through steps 1 to 4 returns what one call of
    [get_easy_apply_job_links] returns in the state those steps left. *)
Lemma run_returns_one_page_read s s0 s1 :
  startup W s = (Ok tt, s0) ->
  steps_before_extraction s0 = (Ok tt, s1) ->
  fst (run_job_automation W cfg s) = fst (get_easy_apply_job_links W s1).
Proof.
  intros H0 H1. unfold run_job_automation, report_and_reraise.
  rewrite (bind_ok _ _ _ _ _ (try_except_ok _ _ _ _ _ H0)).
  unfold try_finally, try_except.
  rewrite automation_steps_split, (bind_ok _ _ _ _ _ H1).
  unfold extraction.
  destruct (get_easy_apply_job_links_total W s1) as (links & s2 & E). rewrite E.
  rewrite (bind_ok _ _ _ _ _ E).
  rewrite (bind_ok _ _ _ _ _ (print_eq _ _ _)), (bind_ok _ _ _ _ _ (print_eq _ _ _)).
  destruct (print_links_total links
              (logged (EvPrint PLAIN "--------------------------------------------------")
                 (logged (EvPrint SUCCESS "Found Easy Apply jobs!") s2)))
    as ([] & s3 & E3).
  rewrite (bind_ok _ _ _ _ _ E3), (bind_ok _ _ _ _ _ (print_eq _ _ _)).
  cbn [ret fst].
  match goal with
  | |- context [cleanup W ?x] => destruct (cleanup_total W x) as ([] & s4 & E4); rewrite E4
  end.
  reflexivity.
Qed.

End Pagination.

(** ** On the synthetic site *)

Module SiteFacts.
Import Site.

(** A wait on something the site does not display runs out of polls and
    leaves the site as it was. *)
Lemma until_times_out polls c loc : forall st lg,
  displayed st loc = false ->
  exists lg', until site polls c loc (MkSession st lg) = (Raise TimeoutException, MkSession st lg').
Proof.
  induction polls as [| n IH]; intros st lg H; cbn [until].
  - eexists. reflexivity.
  - unfold probe_once, bind at 1 2, emit. cbn. unfold probe_at. rewrite H.
    destruct n as [| n']; [eexists; reflexivity |].
    unfold time_sleep, bind at 1 2, emit. cbn.
    destruct (IH st ((lg ++ [EvProbe c loc]) ++ [EvSleep 1]) H) as (lg' & E).
    eauto.
Qed.

(** A wait on something displayed returns at its first poll. *)
Lemma until_hits polls c loc st lg :
  displayed st loc = true ->
  until site (S polls) c loc (MkSession st lg) =
    (Ok (Root loc 0), MkSession st (lg ++ [EvProbe c loc])).
Proof.
  intros H. cbn [until]. unfold probe_once, bind, emit. cbn. unfold probe_at.
  now rewrite H.
Qed.

(** Reading the card at index [k] of the rendered page. *)
Lemma read_card_at st lg k c acc :
  current st !! k = Some c ->
  exists lg',
    read_card site (Root JOB_CARDS k) acc (MkSession st lg) =
      (Ok (acc ++ card_links c), MkSession st lg').
Proof.
  intros H.
  unfold read_card, try_except, el_find_elements, el_find_element, el_get_attribute,
    bind, emit, ask.
  cbn. rewrite H. unfold card_links.
  destruct c as [[|] [[[| a u] |] |]]; repeat (progress (cbn; rewrite ?H));
    rewrite ?app_nil_r; eauto.
Qed.

Lemma read_cards_from st n : forall k lg acc,
  k + n <= length (current st) ->
  exists lg',
    read_cards site (map (Root JOB_CARDS) (seq k n)) acc (MkSession st lg) =
      (Ok (acc ++ qualifying (take n (drop k (current st)))), MkSession st lg').
Proof.
  induction n as [| n IH]; intros k lg acc Hk; cbn [seq map read_cards].
  - exists lg. cbn. now rewrite app_nil_r.
  - destruct (lookup_lt_is_Some_2 (current st) k) as [c Hc]; [lia |].
    destruct (read_card_at st lg k c acc Hc) as (lg1 & E1).
    rewrite (bind_ok _ _ _ _ _ E1).
    destruct (IH (S k) lg1 (acc ++ card_links c)) as (lg2 & E2); [lia |].
    rewrite E2. exists lg2. f_equal. f_equal.
    rewrite (drop_S _ _ _ Hc). cbn. now rewrite <- app_assoc.
Qed.

Lemma job_cards_of st lg :
  exists lg',
    get_job_cards site (MkSession st lg) =
      (Ok (map (Root JOB_CARDS) (seq 0 (length (current st)))), MkSession st lg').
Proof.
  unfold get_job_cards, try_except, wait_until_present.
  destruct (current st) as [| c cs] eqn:Hcur.
  - destruct (until_times_out (polls_within config.EXPLICIT_WAIT) Present JOB_CARDS st lg)
      as (lg1 & E1).
    { unfold displayed. cbn. now rewrite Hcur. }
    rewrite (bind_raise _ _ _ _ _ E1). cbn. eauto.
  - unfold polls_within.
    erewrite bind_ok; [| apply until_hits; unfold displayed; cbn; now rewrite Hcur].
    unfold find_elements, driver_find_elements, bind, emit, ask. cbn.
    rewrite Hcur. eauto.
Qed.

(** One page read on the site collects the qualifying links of the page
    being rendered, and leaves the site as it was. *)
Lemma page_read st lg :
  exists lg',
    get_easy_apply_job_links site (MkSession st lg) =
      (Ok (qualifying (current st)), MkSession st lg').
Proof.
  unfold get_easy_apply_job_links.
  destruct (job_cards_of st lg) as (lg1 & E1).
  rewrite (bind_ok _ _ _ _ _ E1), (bind_ok _ _ _ _ _ (print_eq _ _ _)).
  unfold logged. cbn [world log].
  edestruct (read_cards_from st (length (current st)) 0) as (lg2 & E2); [cbn; lia |].
  rewrite E2. rewrite drop_0, firstn_all. cbn [app]. eauto.
Qed.

(** The location of the site never moves by itself. *)
Lemma location_stays polls : forall st, stays_at site (url st) polls st.
Proof.
  induction polls as [| n IH]; intros st; cbn [stays_at]; [exact I |].
  exists st. split; [reflexivity | apply IH].
Qed.

End SiteFacts.

Module Synthetic.
Import Site.

(** Steps 1 to 4 of a run on the synthetic site succeed and leave the
    first result page rendered. *)
Lemma steps_before_extraction_on_site (first : list Card) (rest : list (list Card)) :
  exists s0 st lg,
    startup site (fresh (first :: rest)) = (Ok tt, s0) /\
    steps_before_extraction site by_cookie s0 = (Ok tt, MkSession st lg) /\
    pages st = first :: rest.
Proof.
  exists (snd (startup site (fresh (first :: rest)))).
  destruct first as [| c cs].
  - eexists _, _.
    split; [vm_compute; reflexivity | split; [vm_compute; reflexivity | reflexivity]].
  - eexists _, _.
    split; [vm_compute; reflexivity | split; [vm_compute; reflexivity | reflexivity]].
Qed.

Lemma results_wait st lg :
  exists rendered lg',
    _wait_for_job_results site (MkSession st lg) = (Ok rendered, MkSession st lg').
Proof.
  unfold _wait_for_job_results, try_except, wait_until_present.
  destruct (displayed st JOB_CARDS) eqn:D.
  - unfold polls_within. erewrite bind_ok; [| now apply SiteFacts.until_hits].
    unfold time_sleep, bind, emit. cbn. eauto.
  - destruct (SiteFacts.until_times_out (polls_within config.EXPLICIT_WAIT)
                Present JOB_CARDS st lg D) as (lg1 & E1).
    rewrite (bind_raise _ _ _ _ _ E1). cbn. eauto.
Qed.

(** The next-page control of the site: actionable while a further page
    exists, and then it renders that page; absent on the last page. *)
Lemma next_page_advances st lg (p1 p2 : list Card) (rest : list (list Card)) :
  pages st = p1 :: p2 :: rest ->
  exists lg',
    go_to_next_page site (MkSession st lg) =
      (Ok true, MkSession (set_pages (p2 :: rest) st) lg').
Proof.
  intros Hp. unfold go_to_next_page, try_except, wait_until_clickable, polls_within.
  erewrite bind_ok;
    [| apply SiteFacts.until_hits; unfold displayed; cbn; now rewrite Hp].
  unfold el_click, bind at 1 2, emit, ask. cbn. rewrite Hp. cbn [tl].
  destruct (results_wait (set_pages (p2 :: rest) st)
              ((lg ++ [EvProbe Clickable NEXT_PAGE_BUTTON]) ++
               [EvClick (Root NEXT_PAGE_BUTTON 0)])) as (b & lg1 & E1).
  rewrite (bind_ok _ _ _ _ _ E1). cbn. eauto.
Qed.

Lemma next_page_absent st lg (p : list Card) :
  pages st = [p] ->
  exists lg', go_to_next_page site (MkSession st lg) = (Ok false, MkSession st lg').
Proof.
  intros Hp. unfold go_to_next_page, try_except, wait_until_clickable.
  destruct (SiteFacts.until_times_out (polls_within config.EXPLICIT_WAIT)
              Clickable NEXT_PAGE_BUTTON st lg) as (lg1 & E1).
  { unfold displayed. cbn. now rewrite Hp. }
  rewrite (bind_raise _ _ _ _ _ E1). cbn. eauto.
Qed.

(** Two result pages of one badged card each. *)
Definition card_a : Card :=
  {| badge := true; title_href := Some (Some "https://www.linkedin.com/jobs/view/1") |}.
Definition card_b : Card :=
  {| badge := true; title_href := Some (Some "https://www.linkedin.com/jobs/view/2") |}.
Definition two_pages : list (list Card) := [[card_a]; [card_b]].

(** C1, as stated, fails: on two synthetic pages, with the next-page
    control actionable on the first and absent on the second, the run
    returns the link of the first page only. *)
Lemma second_page_is_not_harvested :
  fst (go_to_next_page site (fresh two_pages)) = Ok true /\
  pages (world (snd (go_to_next_page site (fresh two_pages)))) = [[card_b]] /\
  fst (go_to_next_page site (snd (go_to_next_page site (fresh two_pages)))) = Ok false /\
  fst (run_job_automation site by_cookie (fresh two_pages)) =
    Ok ["https://www.linkedin.com/jobs/view/1"] /\
  fst (run_job_automation site by_cookie (fresh two_pages)) <>
    Ok (concat (map qualifying two_pages)).
Proof.
  repeat split; try (vm_compute; reflexivity).
  vm_compute. intros H. discriminate H.
Qed.

(** C1, amended.  Over synthetic pages, the run returns exactly the
    qualifying links of the first page, in card order; and in no world does
    a run issue a command on the next-page control. *)
Theorem run_harvests_first_page_only (first : list Card) (rest : list (list Card)) :
  fst (run_job_automation site by_cookie (fresh (first :: rest))) = Ok (qualifying first) /\
  (forall (St : Type) (W : World St) (cfg : config.t) (s : Session St),
      exists tr,
        log (snd (run_job_automation W cfg s)) = log s ++ tr /\
        Forall (fun ev => ~ addresses NEXT_PAGE_BUTTON ev) tr).
Proof.
  split.
  - destruct (steps_before_extraction_on_site first rest) as (s0 & st & lg & H0 & H1 & Hp).
    rewrite (run_returns_one_page_read site by_cookie _ _ _ H0 H1).
    destruct (SiteFacts.page_read st lg) as (lg' & E). rewrite E.
    unfold current. now rewrite Hp.
  - intros St W cfg s. apply (run_job_automation_spares W cfg s).
Qed.

End Synthetic.

(** * The theorems at work on the synthetic site *)

Module Witnesses.
Import Site.

Lemma cookie_auth_without_file_fails_witness :
  config.AUTH_METHOD by_cookie = "cookie" /\
  w_exists site (config.COOKIE_FILE_PATH by_cookie) (world without_cookie_file) = false /\
  exists s', authenticate site by_cookie without_cookie_file = (Ok false, s').
Proof.
  assert (H1 : config.AUTH_METHOD by_cookie = "cookie") by reflexivity.
  assert (H2 : w_exists site (config.COOKIE_FILE_PATH by_cookie)
                 (world without_cookie_file) = false) by (vm_compute; reflexivity).
  split; [exact H1 | split; [exact H2 |]].
  destruct (cookie_auth_without_file_fails site by_cookie without_cookie_file H1 H2)
    as [(s' & E & _) _].
  exists s'. exact E.
Defined.

Lemma missing_domain_defaults_to_linkedin_witness :
  lang !! "name" = Some (JStr "lang") /\
  lang !! "value" = Some (JStr "v=2&lang=en-us") /\
  lang !! "domain" = None /\
  cookie_to_add lang (JStr "lang") (JStr "v=2&lang=en-us") !! "domain"
    = Some (JStr ".linkedin.com") /\
  cookie_to_add lang (JStr "lang") (JStr "v=2&lang=en-us") !! "path" = None.
Proof.
  assert (H1 : lang !! "name" = Some (JStr "lang")) by (vm_compute; reflexivity).
  assert (H2 : lang !! "value" = Some (JStr "v=2&lang=en-us")) by (vm_compute; reflexivity).
  assert (H3 : lang !! "domain" = None) by (vm_compute; reflexivity).
  split; [exact H1 | split; [exact H2 | split; [exact H3 |]]].
  destruct (missing_domain_defaults_to_linkedin site lang (JStr "lang")
              (JStr "v=2&lang=en-us") 0 (fresh []) H1 H2 H3)
    as (_ & _ & Hd & Hp & _).
  split; [exact Hd |]. rewrite Hp. vm_compute. reflexivity.
Defined.


Lemma marker_in_location_means_failed_witness :
  str_in "/login" checkpoint || str_in "/checkpoint" checkpoint = true /\
  exists s',
    login site (config.LINKEDIN_USERNAME by_credentials)
      (config.LINKEDIN_PASSWORD by_credentials) (at_login (Some checkpoint) false)
    = (Ok false, s').
Proof.
  assert (Hm : str_in "/login" checkpoint || str_in "/checkpoint" checkpoint = true)
    by (vm_compute; reflexivity).
  split; [exact Hm |].
  pose (s := at_login (Some checkpoint) false).
  pose (r0 := get_current_url site s).
  pose (r1 := fill_and_submit site (config.LINKEDIN_USERNAME by_credentials)
                (config.LINKEDIN_PASSWORD by_credentials) (snd r0)).
  pose (r2 := wait_for_url_change site (config.BASE_URL +:+ "/login") 15 (snd r1)).
  assert (H0 : get_current_url site s = (Ok (config.BASE_URL +:+ "/login"), snd r0))
    by (vm_compute; reflexivity).
  assert (H1 : fill_and_submit site (config.LINKEDIN_USERNAME by_credentials)
                 (config.LINKEDIN_PASSWORD by_credentials) (snd r0) = (Ok tt, snd r1))
    by (vm_compute; reflexivity).
  assert (H2 : wait_for_url_change site (config.BASE_URL +:+ "/login") 15 (snd r1)
               = (Ok true, snd r2))
    by (vm_compute; reflexivity).
  assert (H3 : w_current_url site (world (snd r2)) = (Ok checkpoint, world (snd r2)))
    by (vm_compute; reflexivity).
  exact (proj1 (marker_in_location_means_failed site by_credentials s _ _ _ _ _ _ _
                  H0 H1 H2 H3 Hm)).
Defined.

Lemma no_navigation_means_failed_witness :
  stays_at site (config.BASE_URL +:+ "/login") (polls_within 15)
    (world (at_login None false)) /\
  exists s',
    login site "ada@example.org" "correct horse" (at_login None false) = (Ok false, s').
Proof.
  pose (s := at_login None false).
  pose (r0 := get_current_url site s).
  pose (r1 := fill_and_submit site "ada@example.org" "correct horse" (snd r0)).
  assert (H0 : get_current_url site s = (Ok (config.BASE_URL +:+ "/login"), snd r0))
    by (vm_compute; reflexivity).
  assert (H1 : fill_and_submit site "ada@example.org" "correct horse" (snd r0)
               = (Ok tt, snd r1))
    by (vm_compute; reflexivity).
  assert (Hw : world (snd r1) = world s) by (vm_compute; reflexivity).
  assert (Hs : stays_at site (config.BASE_URL +:+ "/login") (polls_within 15) (world s))
    by (apply (SiteFacts.location_stays (polls_within 15) (world s))).
  split; [exact Hs |].
  destruct (no_navigation_means_failed site "ada@example.org" "correct horse" s _ _ _
              H0 H1 (eq_ind_r (stays_at site _ _) Hs Hw)) as (s' & E & _).
  exists s'. exact E.
Defined.


Lemma unbadged_or_unreadable_card_contributes_nothing_witness :
  read_cards site [Root JOB_CARDS 0; Root JOB_CARDS 3] [] (at_results sample_page true false)
    = read_cards site [Root JOB_CARDS 3] []
        (snd (el_find_elements site (Root JOB_CARDS 0) EASY_APPLY_BADGE
                (at_results sample_page true false))) /\
  read_cards site [Root JOB_CARDS 1; Root JOB_CARDS 3] [] (at_results sample_page true false)
    = read_cards site [Root JOB_CARDS 3] []
        (snd (el_find_element site (Root JOB_CARDS 1) JOB_TITLE_LINK
                (snd (el_find_elements site (Root JOB_CARDS 1) EASY_APPLY_BADGE
                        (at_results sample_page true false))))) /\
  fst (get_easy_apply_job_links site (at_results mixed_page true false))
    = Ok ["https://www.linkedin.com/jobs/view/9"].
Proof.
  pose (s := at_results sample_page true false).
  split; [| split].
  - apply (proj1 (unbadged_or_unreadable_card_contributes_nothing site
                    (Root JOB_CARDS 0) [Root JOB_CARDS 3] [] s)).
    vm_compute. reflexivity.
  - eapply (proj1 (proj2 (unbadged_or_unreadable_card_contributes_nothing site
                    (Root JOB_CARDS 1) [Root JOB_CARDS 3] [] s))).
    + vm_compute. reflexivity.
    + discriminate.
    + vm_compute. reflexivity.
  - erewrite (proj2 (proj2 (proj2 (proj2 (proj2 (proj2
               (unbadged_or_unreadable_card_contributes_nothing site
                  (Root JOB_CARDS 0) [] [] (at_results mixed_page true false)))))))).
    2: { vm_compute. reflexivity. }
    2: { vm_compute. reflexivity. }
    erewrite (proj1 (unbadged_or_unreadable_card_contributes_nothing site
                       (Root JOB_CARDS 0) [Root JOB_CARDS 1; Root JOB_CARDS 2] [] _)).
    2: { vm_compute. reflexivity. }
    erewrite (proj1 (proj2 (unbadged_or_unreadable_card_contributes_nothing site
                       (Root JOB_CARDS 1) [Root JOB_CARDS 2] [] _))).
    2: { vm_compute. reflexivity. }
    2: { discriminate. }
    2: { vm_compute. reflexivity. }
    erewrite (proj1 (proj2 (proj2 (proj2 (proj2
               (unbadged_or_unreadable_card_contributes_nothing site
                  (Root JOB_CARDS 2) [] [] _)))))).
    2: { vm_compute. reflexivity. }
    2: { discriminate. }
    2: { vm_compute. reflexivity. }
    2: { vm_compute. reflexivity. }
    2: { discriminate. }
    reflexivity.
Defined.

Lemma harvested_links_are_nonempty_witness :
  exists s3,
    read_card site (Root JOB_CARDS 2) ["https://www.linkedin.com/jobs/view/1"]
      (at_results sample_page true false)
    = (Ok ["https://www.linkedin.com/jobs/view/1"], s3).
Proof.
  pose (s := at_results sample_page true false).
  eexists.
  eapply (proj2 (harvested_links_are_nonempty site s) (Root JOB_CARDS 2) _ s).
  - vm_compute. reflexivity.
  - discriminate.
  - vm_compute. reflexivity.
  - vm_compute. reflexivity.
  - now left.
Defined.

Lemma filter_failure_is_absorbed_witness :
  (exists s1,
      wait_until_clickable site EASY_APPLY_FILTER (at_results sample_page false false)
        = (Raise TimeoutException, s1) /\
      apply_filters site true (at_results sample_page false false)
        = (Ok tt, logged (EvPrint WARNING "Could not apply Easy Apply filter") s1)) /\
  (exists s2,
      apply_filters site true (at_results sample_page true true)
        = (Ok tt, logged (EvPrint WARNING "Could not apply Easy Apply filter") s2)) /\
  (exists s3 tr,
      apply_filters site true (at_results sample_page true false)
        = (Ok tt, logged (EvPrint INFO "Easy Apply filter applied successfully") s3) /\
      log s3 = [EvProbe Clickable EASY_APPLY_FILTER; EvClick (Root EASY_APPLY_FILTER 0)]
               ++ EvProbe Present JOB_CARDS :: tr).
Proof.
  split; [| split].
  - pose (r := wait_until_clickable site EASY_APPLY_FILTER (at_results sample_page false false)).
    assert (H : wait_until_clickable site EASY_APPLY_FILTER (at_results sample_page false false)
                = (Raise TimeoutException, snd r)) by (vm_compute; reflexivity).
    exists (snd r). split; [exact H |].
    exact (proj1 (proj2 (filter_failure_is_absorbed site (at_results sample_page false false)))
             _ _ H).
  - pose (s := at_results sample_page true true).
    pose (r1 := wait_until_clickable site EASY_APPLY_FILTER s).
    pose (r2 := el_click site (Root EASY_APPLY_FILTER 0) (snd r1)).
    assert (H1 : wait_until_clickable site EASY_APPLY_FILTER s
                 = (Ok (Root EASY_APPLY_FILTER 0), snd r1)) by (vm_compute; reflexivity).
    assert (H2 : el_click site (Root EASY_APPLY_FILTER 0) (snd r1)
                 = (Raise (WebDriverException "element click intercepted"), snd r2))
      by (vm_compute; reflexivity).
    exists (snd r2).
    exact (proj1 (proj1 (proj2 (proj2 (filter_failure_is_absorbed site s))) _ _ _ _ H1 H2)).
  - pose (s := at_results sample_page true false).
    pose (r1 := wait_until_clickable site EASY_APPLY_FILTER s).
    pose (r2 := el_click site (Root EASY_APPLY_FILTER 0) (snd r1)).
    assert (H1 : wait_until_clickable site EASY_APPLY_FILTER s
                 = (Ok (Root EASY_APPLY_FILTER 0), snd r1)) by (vm_compute; reflexivity).
    assert (H2 : el_click site (Root EASY_APPLY_FILTER 0) (snd r1) = (Ok tt, snd r2))
      by (vm_compute; reflexivity).
    destruct (proj1 (proj2 (proj2 (proj2 (filter_failure_is_absorbed site s)))) _ _ _ H1 H2)
      as (rendered & s3 & tr & _ & L2 & E & L3 & _).
    exists s3, tr. split; [exact E |].
    rewrite L3, L2. vm_compute. reflexivity.
Defined.

Lemma empty_location_leaves_location_input_untouched_witness :
  exists tr,
    log (snd (search_jobs site "Backend Engineer" "" (at_results sample_page true false)))
      = log (at_results sample_page true false) ++ tr /\
    Forall (fun ev => forall c, ev <> EvProbe c SEARCH_LOCATION_INPUT) tr /\
    In (EvSendKeys (Root SEARCH_KEYWORD_INPUT 0) RETURN) tr.
Proof.
  pose (s := at_results sample_page true false).
  destruct (empty_location_leaves_location_input_untouched site "Backend Engineer" s)
    as (tr & L & _ & Fs & Hok).
  exists tr. split; [exact L | split].
  - eapply Forall_impl; [exact Fs |]. intros ev H. exact (proj1 H).
  - assert (E : search_jobs site "Backend Engineer" "" s
                = (Ok tt, snd (search_jobs site "Backend Engineer" "" s)))
      by (vm_compute; reflexivity).
    destruct (Hok _ E) as (el & t1 & t2 & Hkw & -> & _).
    assert (Hel : Some (Root SEARCH_KEYWORD_INPUT 0) = Some el)
      by (rewrite <- Hkw; vm_compute; reflexivity).
    injection Hel as <-.
    apply in_or_app. right. cbn. auto.
Defined.
End Witnesses.

(** * More worlds, for the properties that follow *)

Module Worlds.
Import Site.

(** The synthetic site behind a page that never renders: every expected
    condition stays false. *)
Definition blank_page : World Site.t := {|
  w_install := w_install site;
  w_start := w_start site;
  w_get := w_get site;
  w_refresh := w_refresh site;
  w_current_url := w_current_url site;
  w_add_cookie := w_add_cookie site;
  w_quit := w_quit site;
  w_probe := fun _ _ st => (Miss, st);
  w_find_elements := w_find_elements site;
  w_find_element := w_find_element site;
  w_clear := w_clear site;
  w_send_keys := w_send_keys site;
  w_click := w_click site;
  w_get_attribute := w_get_attribute site;
  w_text := w_text site;
  w_sleep := w_sleep site;
  w_exists := w_exists site;
  w_read_json := w_read_json site
|}.

(** A browser whose state is the time elapsed, in polling intervals: it
    shows the login page for [delay] intervals and the feed from then on. *)
Definition redirecting (delay : nat) : World nat := {|
  w_install := fun t => (Ok "driver/chromedriver", t);
  w_start := fun t => (Ok tt, t);
  w_get := fun _ t => (Ok tt, t);
  w_refresh := fun t => (Ok tt, t);
  w_current_url := fun t : nat =>
    (Ok (if Nat.ltb t delay then config.BASE_URL +:+ "/login" else config.BASE_URL +:+ "/feed"), t);
  w_add_cookie := fun _ t => (Ok tt, t);
  w_quit := fun t => (Ok tt, t);
  w_probe := fun _ loc t => (Hit (Root loc 0), t);
  w_find_elements := fun _ _ t => (Ok [], t);
  w_find_element := fun _ _ t => (Raise NoSuchElementException, t);
  w_clear := fun _ t => (Ok tt, t);
  w_send_keys := fun _ _ t => (Ok tt, t);
  w_click := fun _ t => (Ok tt, t);
  w_get_attribute := fun _ _ t => (Ok None, t);
  w_text := fun _ t => (Ok "", t);
  w_sleep := fun ticks t => (t + ticks)%nat;
  w_exists := fun _ _ => false;
  w_read_json := fun path _ => Raise (FileNotFoundError path)
|}.

Definition unknown_method : config.t := {|
  config.AUTH_METHOD := "sso";
  config.COOKIE_FILE_PATH := "cookie.json";
  config.LINKEDIN_USERNAME := "ada@example.org";
  config.LINKEDIN_PASSWORD := "correct horse";
  config.DEFAULT_JOB_KEYWORDS := "Software Engineer";
  config.DEFAULT_JOB_LOCATION := "Remote"
|}.

Definition no_password : config.t := {|
  config.AUTH_METHOD := "credentials";
  config.COOKIE_FILE_PATH := "cookie.json";
  config.LINKEDIN_USERNAME := "ada@example.org";
  config.LINKEDIN_PASSWORD := "";
  config.DEFAULT_JOB_KEYWORDS := "Software Engineer";
  config.DEFAULT_JOB_LOCATION := "Remote"
|}.

(** A started browser that has not opened any page yet; submitting the
    login form will lead to [target]. *)
Definition before_login (target : option string) : Session Site.t :=
  MkSession
    {| url := "about:blank"; files := ∅; jar := []; pages := [];
       has_filter := true; click_fails := false;
       submit_target := target; shows_error := false |}
    [].

(** A browser showing the page at [u]. *)
Definition at_url (u : string) : Session Site.t :=
  MkSession
    {| url := u; files := ∅; jar := []; pages := [];
       has_filter := true; click_fails := false;
       submit_target := None; shows_error := false |}
    [].

(** The feed, reached with the login path in its query string. *)
Definition feed_with_redirect : string :=
  "https://www.linkedin.com/feed/?session_redirect=/login".

End Worlds.

(** * utilities/browser_setup.py: the browser options *)

(** The value of an experimental option. *)
Inductive option_value : Type :=
| Switches (l : list string)
| Flag (b : bool).

Record Options : Type := {
  arguments : list string;
  experimental_options : list (string * option_value)
}.

(** [get_chrome_options]; [current_os] is what [get_operating_system]
    returned, the lower-cased name of the platform. *)
Definition get_chrome_options (current_os : string) (headless : option bool) : Options :=
  let use_headless :=
    match headless with
    | Some h => h
    | None => String.eqb current_os "linux"
    end in
  {| arguments :=
       (if use_headless
        then ["--headless=new"; "--no-sandbox"; "--disable-dev-shm-usage"]
        else [])
       ++ ["--disable-gpu"; "--window-size=1920,1080"; "--disable-extensions";
           "--disable-popup-blocking"; "--start-maximized";
           "--disable-blink-features=AutomationControlled"];
     experimental_options :=
       [("excludeSwitches", Switches ["enable-automation"]);
        ("useAutomationExtension", Flag false)] |}.

(** X22.  The browser runs headless exactly when asked to, or, when the caller
    leaves the choice open, on Linux; an explicit [False] wins over the
    platform.  The sandbox is switched off in exactly the same cases, and
    no argument is ever given twice. *)
Theorem headless_when_asked_or_on_linux (current_os : string) (headless : option bool) :
  let args := arguments (get_chrome_options current_os headless) in
  (In "--headless=new" args <->
     headless = Some true \/ (headless = None /\ current_os = "linux")) /\
  (In "--no-sandbox" args <-> In "--headless=new" args) /\
  NoDup args.
Proof.
  cbn zeta. unfold get_chrome_options. cbn [arguments].
  set (use_headless := match headless with Some h => h | None => String.eqb current_os "linux" end).
  assert (Huse : use_headless = true <->
                 headless = Some true \/ (headless = None /\ current_os = "linux")).
  { subst use_headless. destruct headless as [[|] |].
    - split; auto.
    - split; [discriminate | intros [H | [H _]]; discriminate H].
    - rewrite String.eqb_eq. split; [auto | intros [H | [_ H]]; [discriminate H | exact H]]. }
  assert (Hin : forall a : string,
             a = "--headless=new" \/ a = "--no-sandbox" ->
             (In a ((if use_headless
                     then ["--headless=new"; "--no-sandbox"; "--disable-dev-shm-usage"]
                     else [])
                    ++ ["--disable-gpu"; "--window-size=1920,1080"; "--disable-extensions";
                        "--disable-popup-blocking"; "--start-maximized";
                        "--disable-blink-features=AutomationControlled"])
              <-> use_headless = true)).
  { intros a Ha. destruct use_headless; cbn.
    - split; [reflexivity | intros _]. destruct Ha as [-> | ->]; auto.
    - split; [| discriminate]. intros H.
      destruct Ha as [-> | ->];
        repeat (destruct H as [H | H]; [discriminate H |]); contradiction. }
  split; [| split].
  - rewrite (Hin "--headless=new") by auto. exact Huse.
  - rewrite (Hin "--headless=new"), (Hin "--no-sandbox") by auto. reflexivity.
  - destruct use_headless; apply (bool_decide_unpack _); vm_compute; exact I.
Qed.

(** * The marker test *)

Lemma prefix_iff (p s : string) :
  String.prefix p s = true <-> exists q, s = p +:+ q.
Proof.
  revert s. induction p as [| a p IH]; intros s.
  - split; [intros _; now exists s | intros _; now destruct s].
  - destruct s as [| b s]; cbn; [split; [discriminate | intros [q H]; discriminate H] |].
    destruct (ascii_dec a b) as [-> | Hne].
    + rewrite IH. split; intros [q H]; exists q; [now rewrite H |].
      change (String b s = String b (p +:+ q)) in H. now injection H.
    + split; [discriminate | intros [q H]].
      change (String b s = String a (p +:+ q)) in H. injection H as H _. congruence.
Qed.

(** [str_in] is Python's [in]: the needle occurs somewhere in the
    haystack. *)
Lemma str_in_iff (needle hay : string) :
  str_in needle hay = true <-> exists p q, hay = p +:+ needle +:+ q.
Proof.
  induction hay as [| a hay IH]; cbn [str_in].
  - rewrite orb_false_r, prefix_iff. split.
    + intros [q H]. now exists "", q.
    + intros (p & q & H). destruct p as [| b p]; [now exists q | discriminate H].
  - rewrite orb_true_iff, prefix_iff, IH. split.
    + intros [[q H] | (p & q & H)]; [now exists "", q |].
      exists (String a p), q. cbn. now rewrite H.
    + intros (p & q & H). destruct p as [| b p]; [left; now exists q |].
      right. injection H as _ H. now exists p, q.
Qed.

Section Markers.

Context {St : Type}.
Variable W : World St.

(** X7.  The location test of the login page reads the location once and
    fails exactly when [/login] or [/checkpoint] occurs anywhere in it,
    be it in the path or in a query string. *)
Theorem login_check_fails_on_marker_anywhere (s : Session St) (url : string) (w : St) :
  w_current_url W (world s) = (Ok url, w) ->
  exists b,
    _is_login_successful W s = (Ok b, MkSession w (log s ++ [EvCurrentUrl])) /\
    (b = false <->
       exists p q, url = p +:+ "/login" +:+ q \/ url = p +:+ "/checkpoint" +:+ q).
Proof.
  intros Hu.
  unfold _is_login_successful, get_current_url, driver_current_url, bind, emit, ask, ret.
  cbn. rewrite Hu. eexists. split; [reflexivity |].
  rewrite <- negb_orb, negb_false_iff, orb_true_iff, !str_in_iff.
  split.
  - intros [(p & q & H) | (p & q & H)]; exists p, q; auto.
  - intros (p & q & [H | H]); [left | right]; eauto.
Qed.

End Markers.

(** * Further properties of the authenticator *)

Section Strategies.

Context {St : Type}.
Variable W : World St.
Variable cfg : config.t.

(** Generic trace facts for the commands that are not plain [emit]/[ask]. *)

Lemma exists_emits (P : event -> Prop) path :
  P (EvExists path) -> emits P (os_path_exists W path).
Proof.
  intros H s. exists [EvExists path]. unfold os_path_exists, bind, emit. cbn.
  split; [reflexivity | constructor; [exact H | constructor]].
Qed.

Lemma read_json_emits (P : event -> Prop) path :
  P (EvRead path) -> emits P (read_json W path).
Proof.
  intros H s. exists [EvRead path]. unfold read_json, bind, emit. cbn.
  split; [reflexivity | constructor; [exact H | constructor]].
Qed.

Lemma until_emits_any (P : event -> Prop) c loc polls :
  P (EvProbe c loc) -> (forall n, P (EvSleep n)) -> emits P (until W polls c loc).
Proof.
  intros Hp Hs. eapply emits_weaken; [| apply until_emits].
  intros ev [-> | [n ->]]; auto.
Qed.

Lemma until_url_differs_emits (P : event -> Prop) url polls :
  P EvCurrentUrl -> (forall n, P (EvSleep n)) -> emits P (until_url_differs W polls url).
Proof.
  intros Hu Hs. induction polls as [| n IH]; cbn [until_url_differs].
  - apply emits_raise.
  - apply emits_bind.
    + apply emits_bind; [now apply emits_emit | intros _; apply emits_ask].
    + intros u. apply emits_if; [apply emits_ret |].
      destruct n as [| n']; [apply emits_raise |].
      apply emits_bind; [apply time_sleep_emits; apply Hs | intros _; exact IH].
Qed.

Lemma add_cookies_from_emits (P : event -> Prop) cookies :
  (forall c, P (EvAddCookie c)) -> (forall lvl msg, P (EvPrint lvl msg)) ->
  forall n, emits P (add_cookies_from W cookies n).
Proof.
  intros Ha Hp. induction cookies as [| c rest IH]; intros n; cbn [add_cookies_from].
  - apply emits_ret.
  - apply emits_bind; [| intros k; apply IH].
    unfold add_one_cookie, subscript, driver_add_cookie, print.
    apply emits_try_except.
    + apply emits_bind; [destruct (c !! "name"); [apply emits_ret | apply emits_raise] |].
      intros name.
      apply emits_bind; [destruct (c !! "value"); [apply emits_ret | apply emits_raise] |].
      intros value.
      apply emits_bind; [| intros _; apply emits_ret].
      apply emits_bind; [apply emits_emit, Ha | intros _; apply emits_ask].
    + intros e. apply emits_bind; [apply emits_emit, Hp | intros _; apply emits_ret].
Qed.

(** The commands of the cookie strategy: none of them touches an element
    of the page. *)
Definition element_free (ev : event) : Prop :=
  match ev with
  | EvProbe _ _ | EvFindElements _ _ | EvFindElement _ _
  | EvClear _ | EvSendKeys _ _ | EvClick _ | EvGetAttribute _ _ | EvText _ => False
  | _ => True
  end.

(** The commands of the credentials strategy: none of them reads the
    cookie file or writes to the cookie jar. *)
Definition cookie_free (ev : event) : Prop :=
  match ev with
  | EvExists _ | EvRead _ | EvAddCookie _ | EvRefresh => False
  | _ => True
  end.

Lemma login_with_cookies_element_free cookie_file :
  emits element_free (login_with_cookies W cfg cookie_file).
Proof.
  unfold login_with_cookies, load_cookies_from_file, add_cookies_to_driver,
    driver_get, driver_refresh, driver_current_url, print.
  apply emits_try_except.
  - apply emits_bind; [apply emits_bind; [now apply emits_emit | intros _; apply emits_ask] |].
    intros _. apply emits_bind; [now apply emits_emit | intros _].
    apply emits_bind.
    { apply emits_bind; [now apply exists_emits | intros present].
      apply emits_if; [apply emits_raise | now apply read_json_emits]. }
    intros cookies. apply emits_bind; [now apply emits_emit | intros _].
    apply emits_bind; [apply add_cookies_from_emits; intros; exact I | intros added].
    apply emits_bind; [now apply emits_emit | intros _].
    apply emits_bind; [apply emits_bind; [now apply emits_emit | intros _; apply emits_ask] |].
    intros _.
    apply emits_bind; [apply emits_bind; [now apply emits_emit | intros _; apply emits_ask] |].
    intros _.
    apply emits_bind; [apply emits_bind; [now apply emits_emit | intros _; apply emits_ask] |].
    intros url. apply emits_if;
      (apply emits_bind; [now apply emits_emit | intros _; apply emits_ret]).
  - intros e. apply emits_if;
      (apply emits_bind; [now apply emits_emit | intros _; apply emits_ret]).
Qed.

(** X3.  With the cookie method, [authenticate] never looks up, clicks, clears,
    types into or reads an element: the login form is not touched. *)
Theorem cookie_strategy_never_touches_the_page (s : Session St) :
  config.AUTH_METHOD cfg = "cookie" ->
  exists tr,
    log (snd (authenticate W cfg s)) = log s ++ tr /\ Forall element_free tr.
Proof.
  intros Hm. revert s. change (emits element_free (authenticate W cfg)).
  unfold authenticate. rewrite Hm. cbn [String.eqb Ascii.eqb Bool.eqb].
  unfold cookies_exist, print.
  apply emits_bind; [now apply emits_emit | intros _].
  apply emits_bind; [now apply exists_emits | intros present].
  apply emits_if.
  - apply emits_bind; [now apply emits_emit | intros _; apply emits_ret].
  - apply emits_bind; [now apply emits_emit | intros _].
    apply login_with_cookies_element_free.
Qed.

Ltac cookie_free_step :=
  first
    [ apply emits_ret
    | apply emits_raise
    | apply emits_ask
    | apply emits_emit; exact I
    | apply time_sleep_emits; exact I
    | apply until_emits_any; [exact I | intros; exact I]
    | apply until_url_differs_emits; [exact I | intros; exact I]
    | apply emits_bind; [| intros ?]
    | apply emits_try_except; [| intros ?]
    | apply emits_if ].

(** X4.  With the credentials method, [authenticate] never tests for, reads or
    replays a cookie file. *)
Theorem credentials_strategy_never_touches_cookies (s : Session St) :
  config.AUTH_METHOD cfg = "credentials" ->
  exists tr,
    log (snd (authenticate W cfg s)) = log s ++ tr /\ Forall cookie_free tr.
Proof.
  intros Hm. revert s. change (emits cookie_free (authenticate W cfg)).
  unfold authenticate. rewrite Hm. cbn [String.eqb Ascii.eqb Bool.eqb].
  unfold navigate_to_login, navigate_to, login, get_error_message,
    _is_login_successful, get_current_url, enter_username, enter_password,
    click_login_button, wait_for_url_change, wait_until_visible, wait_until_clickable,
    driver_get, driver_current_url, el_clear, el_send_keys, el_click, el_text, print.
  repeat cookie_free_step.
Qed.

End Strategies.

Section Outcomes.

Context {St : Type}.
Variable W : World St.
Variable cfg : config.t.

(** X1.  An unrecognised method fails at once: three lines are printed and the
    browser is left alone. *)
Theorem unknown_method_fails_without_browser (s : Session St) :
  config.AUTH_METHOD cfg <> "cookie" ->
  config.AUTH_METHOD cfg <> "credentials" ->
  authenticate W cfg s =
    (Ok false,
     MkSession (world s)
       (log s ++ [EvPrint INFO "Authentication method";
                  EvPrint ERROR "Invalid AUTH_METHOD";
                  EvPrint INFO "Valid options: 'cookie' or 'credentials'"])).
Proof.
  intros H1 H2. unfold authenticate.
  apply String.eqb_neq in H1. apply String.eqb_neq in H2. rewrite H1, H2.
  unfold print, bind, emit, ret. cbn. now rewrite <- !app_assoc.
Qed.

(** X2.  With the credentials method, an empty user name or an empty password
    fails before the login page is even requested. *)
Theorem missing_credentials_fail_without_browser (s : Session St) :
  config.AUTH_METHOD cfg = "credentials" ->
  config.LINKEDIN_USERNAME cfg = "" \/ config.LINKEDIN_PASSWORD cfg = "" ->
  authenticate W cfg s =
    (Ok false,
     MkSession (world s)
       (log s ++ [EvPrint INFO "Authentication method";
                  EvPrint ERROR "LINKEDIN_USERNAME and LINKEDIN_PASSWORD must be set in .env"])).
Proof.
  intros Hm Hc. unfold authenticate. rewrite Hm. cbn [String.eqb Ascii.eqb Bool.eqb].
  assert (E : negb (truthy_str (config.LINKEDIN_USERNAME cfg))
              || negb (truthy_str (config.LINKEDIN_PASSWORD cfg)) = true).
  { destruct Hc as [-> | ->]; cbn; [reflexivity | apply orb_true_r]. }
  rewrite E. unfold print, bind, emit, ret. cbn. now rewrite <- !app_assoc.
Qed.

(** The prefix of [authenticate] in credentials mode, up to the login page. *)
Definition opened_login_page (sa s : Session St) : Prop :=
  config.AUTH_METHOD cfg = "credentials" /\
  truthy_str (config.LINKEDIN_USERNAME cfg) = true /\
  truthy_str (config.LINKEDIN_PASSWORD cfg) = true /\
  navigate_to_login W
    (logged (EvPrint INFO "Logging in as")
       (logged (EvPrint INFO "Authentication method") sa)) = (Ok tt, s).

Lemma authenticate_propagates_login_exception sa s e s1 :
  opened_login_page sa s ->
  login W (config.LINKEDIN_USERNAME cfg) (config.LINKEDIN_PASSWORD cfg) s = (Raise e, s1) ->
  authenticate W cfg sa = (Raise e, s1).
Proof.
  intros (Hm & Hu & Hp & Hnav) Hlogin.
  unfold authenticate. rewrite Hm, Hu, Hp.
  cbn [String.eqb Ascii.eqb Bool.eqb negb orb].
  rewrite (bind_ok _ _ _ _ _ (print_eq _ _ _)), (bind_ok _ _ _ _ _ (print_eq _ _ _)).
  now rewrite (bind_ok _ _ _ _ _ Hnav), (bind_raise _ _ _ _ _ Hlogin).
Qed.

(** X5.  A login form that never shows is not turned into a failed outcome: the
    exception of the wait leaves [login], and leaves [authenticate], with
    nothing typed. *)
Theorem missing_login_form_is_not_absorbed
    (sa s : Session St) (login_url : string) (s0 : Session St) (e : exn) (s1 : Session St) :
  opened_login_page sa s ->
  get_current_url W s = (Ok login_url, s0) ->
  wait_until_visible W USERNAME_INPUT s0 = (Raise e, s1) ->
  login W (config.LINKEDIN_USERNAME cfg) (config.LINKEDIN_PASSWORD cfg) s = (Raise e, s1) /\
  authenticate W cfg sa = (Raise e, s1).
Proof.
  intros Hopen Hbase Hwait.
  assert (Hlogin : login W (config.LINKEDIN_USERNAME cfg) (config.LINKEDIN_PASSWORD cfg) s
                   = (Raise e, s1)).
  { unfold login. rewrite (bind_ok _ _ _ _ _ Hbase).
    unfold enter_username. now rewrite (bind_raise _ _ _ _ _ (bind_raise _ _ _ _ _ Hwait)). }
  split; [exact Hlogin |].
  eapply authenticate_propagates_login_exception; eauto.
Qed.

(** X6.  A submitted form followed by a change of location to an address with
    neither marker is a successful login; [authenticate] returns [True]
    from the very state [login] left, without looking for an error
    message. *)
Theorem login_succeeds_on_redirect
    (sa s : Session St) (login_url : string) (s0 s1 s2 : Session St)
    (url : string) (w3 : St) :
  opened_login_page sa s ->
  get_current_url W s = (Ok login_url, s0) ->
  fill_and_submit W (config.LINKEDIN_USERNAME cfg) (config.LINKEDIN_PASSWORD cfg) s0
    = (Ok tt, s1) ->
  wait_for_url_change W login_url 15 s1 = (Ok true, s2) ->
  w_current_url W (world s2) = (Ok url, w3) ->
  str_in "/login" url = false ->
  str_in "/checkpoint" url = false ->
  login W (config.LINKEDIN_USERNAME cfg) (config.LINKEDIN_PASSWORD cfg) s
    = (Ok true, MkSession w3 (log s2 ++ [EvCurrentUrl])) /\
  authenticate W cfg sa = (Ok true, MkSession w3 (log s2 ++ [EvCurrentUrl])).
Proof.
  intros (Hm & Hu & Hp & Hnav) Hbase Hfill Hwait Hurl Hl Hc.
  assert (Hlogin : login W (config.LINKEDIN_USERNAME cfg) (config.LINKEDIN_PASSWORD cfg) s
                   = (Ok true, MkSession w3 (log s2 ++ [EvCurrentUrl]))).
  { rewrite login_eq, Hbase, Hfill, Hwait. cbn [negb].
    unfold _is_login_successful, get_current_url, driver_current_url, bind, emit, ask, ret.
    cbn. rewrite Hurl, Hl, Hc. reflexivity. }
  split; [exact Hlogin |].
  unfold authenticate. rewrite Hm, Hu, Hp.
  cbn [String.eqb Ascii.eqb Bool.eqb negb orb].
  rewrite (bind_ok _ _ _ _ _ (print_eq _ _ _)), (bind_ok _ _ _ _ _ (print_eq _ _ _)).
  rewrite (bind_ok _ _ _ _ _ Hnav), (bind_ok _ _ _ _ _ Hlogin). reflexivity.
Qed.

(** The part of [login_with_cookies] before the verification: open the
    site, load the file, inject, reload the feed. *)
Definition replay (path : string) : M St unit :=
  driver_get W config.BASE_URL ;;
  print INFO "Loading cookies from" ;;
  cookies <- load_cookies_from_file W cfg (Some path) ;;
  print INFO "Found cookies in file" ;;
  _ <- add_cookies_to_driver W cookies ;;
  print INFO "Added cookies to browser" ;;
  driver_refresh W ;;
  driver_get W (config.BASE_URL +:+ "/feed").

(** X8.  After a replay, the outcome of [login_with_cookies] is read off the
    location: [False] when it holds [/login] or [/authwall], [True]
    otherwise (a [/checkpoint] address included); and whatever fails on
    the way, the function returns a boolean. *)
Theorem cookie_login_is_decided_by_location
    (cookie_file : option string) (s s1 : Session St) (url : string) (w2 : St) :
  replay (path_or_default cfg cookie_file) s = (Ok tt, s1) ->
  w_current_url W (world s1) = (Ok url, w2) ->
  (exists s',
      login_with_cookies W cfg cookie_file s =
        (Ok (negb (str_in "/login" url || str_in "/authwall" url)), s') /\
      world s' = w2) /\
  (forall s0, exists b s', login_with_cookies W cfg cookie_file s0 = (Ok b, s')).
Proof.
  intros Hr Hu. split; [| intros s0; apply login_with_cookies_total].
  unfold login_with_cookies.
  set (path := path_or_default cfg cookie_file) in *.
  match goal with
  | |- context [try_except ?m ?h] =>
      assert (E : m s = bind (replay path)
                    (fun _ =>
                       current_url <- driver_current_url W ;;
                       if str_in "/login" current_url || str_in "/authwall" current_url then
                         print WARNING "Cookie login failed - redirected to login page" ;;
                         ret false
                       else
                         print INFO "Cookie login successful!" ;;
                         ret true) s)
  end.
  { unfold replay. do 7 (rewrite bind_assoc; apply bind_ext; intros ? ?). reflexivity. }
  unfold try_except. rewrite E, (bind_ok _ _ _ _ _ Hr).
  unfold driver_current_url, bind, emit, ask. cbn. rewrite Hu.
  destruct (str_in "/login" url || str_in "/authwall" url); cbn; eauto.
Qed.

End Outcomes.

(** * Further properties of waits, search and harvest *)

Section Waits.

Context {St : Type}.
Variable W : World St.

(** The world after [polls] evaluations of the navigation condition that
    each found nothing new. *)
Fixpoint after_polls (polls : nat) (w : St) : St :=
  match polls with
  | 0 => w
  | S n => after_polls n (w_sleep W 1 (snd (w_current_url W w)))
  end.

Lemma until_url_differs_detects url k : forall polls s u w',
  k < polls ->
  stays_at W url k (world s) ->
  w_current_url W (after_polls k (world s)) = (Ok u, w') ->
  u <> url ->
  until_url_differs W polls url s =
    (Ok true,
     MkSession w' (log s ++ concat (repeat [EvCurrentUrl; EvSleep 1] k) ++ [EvCurrentUrl])).
Proof.
  induction k as [| k IH]; intros polls s u w' Hk Hstay Hu Hne;
    (destruct polls as [| n]; [lia |]); cbn [until_url_differs].
  - cbn in Hu. rewrite (bind_ok _ _ _ _ _ (driver_current_url_eq W s u w' Hu)).
    apply String.eqb_neq in Hne. now rewrite Hne.
  - destruct Hstay as (w1 & Hw & Hrest).
    cbn [after_polls] in Hu. rewrite Hw in Hu. cbn [snd] in Hu.
    rewrite (bind_ok _ _ _ _ _ (driver_current_url_eq W s url w1 Hw)), String.eqb_refl.
    cbn [negb]. destruct n as [| n']; [lia |].
    rewrite (bind_ok _ _ _ _ _ (time_sleep_eq W 1 _)). cbn [world log].
    rewrite (IH (S n') (MkSession (w_sleep W 1 w1) ((log s ++ [EvCurrentUrl]) ++ [EvSleep 1]))
               u w'); [| lia | exact Hrest | exact Hu | exact Hne].
    cbn. now rewrite <- !app_assoc.
Qed.

(** X9.  A change of location is noticed at the first poll that sees it: after
    [k] polls at the baseline, with [k] within the budget of the timeout,
    [wait_for_url_change] returns [True] on poll [k + 1] and reads the
    location no further. *)
Theorem url_change_is_detected_at_first_sight
    (url : string) (timeout k : nat) (s : Session St) (u : string) (w' : St) :
  k <= 2 * timeout ->
  stays_at W url k (world s) ->
  w_current_url W (after_polls k (world s)) = (Ok u, w') ->
  u <> url ->
  wait_for_url_change W url timeout s =
    (Ok true,
     MkSession w' (log s ++ concat (repeat [EvCurrentUrl; EvSleep 1] k) ++ [EvCurrentUrl])).
Proof.
  intros Hk Hstay Hu Hne. unfold wait_for_url_change, try_except.
  erewrite bind_ok.
  2: { apply (until_url_differs_detects url k (polls_within timeout) s u w');
         [unfold polls_within; lia | exact Hstay | exact Hu | exact Hne]. }
  reflexivity.
Qed.

(** X10.  The three outcomes of [go_to_next_page]: a wait or a click that fails
    gives [False] and stops there; a click that succeeds gives [True],
    whether or not result cards show up afterwards. *)
Theorem next_page_outcomes (s : Session St) :
  (forall e s1,
      wait_until_clickable W NEXT_PAGE_BUTTON s = (Raise e, s1) ->
      go_to_next_page W s = (Ok false, s1)) /\
  (forall btn s1 e s2,
      wait_until_clickable W NEXT_PAGE_BUTTON s = (Ok btn, s1) ->
      el_click W btn s1 = (Raise e, s2) ->
      go_to_next_page W s = (Ok false, s2)) /\
  (forall btn s1 s2,
      wait_until_clickable W NEXT_PAGE_BUTTON s = (Ok btn, s1) ->
      el_click W btn s1 = (Ok tt, s2) ->
      exists rendered s3,
        _wait_for_job_results W s2 = (Ok rendered, s3) /\
        go_to_next_page W s = (Ok true, s3)).
Proof.
  unfold go_to_next_page, try_except. split; [| split].
  - intros e s1 H. now rewrite (bind_raise _ _ _ _ _ H).
  - intros btn s1 e s2 H Hc.
    now rewrite (bind_ok _ _ _ _ _ H), (bind_raise _ _ _ _ _ Hc).
  - intros btn s1 s2 H Hc.
    destruct (_wait_for_job_results_total W s2) as (rendered & s3 & E).
    exists rendered, s3. split; [exact E |].
    now rewrite (bind_ok _ _ _ _ _ H), (bind_ok _ _ _ _ _ Hc), (bind_ok _ _ _ _ _ E).
Qed.

(** X11.  When no result card shows up within the wait, the page read returns
    the empty list: the cards are not even looked up. *)
Theorem no_cards_means_no_links (s : Session St) (e : exn) (s1 : Session St) :
  wait_until_present W JOB_CARDS s = (Raise e, s1) ->
  get_easy_apply_job_links W s =
    (Ok [], logged (EvPrint INFO "Found job cards on page") s1).
Proof.
  intros H.
  assert (E : get_job_cards W s = (Ok [], s1)).
  { unfold get_job_cards, try_except. now rewrite (bind_raise _ _ _ _ _ H). }
  unfold get_easy_apply_job_links.
  now rewrite (bind_ok _ _ _ _ _ E), (bind_ok _ _ _ _ _ (print_eq _ _ _)).
Qed.

End Waits.

Section Typing.

Context {St : Type}.
Variable W : World St.

Lemma enter_text_trace (loc : locator) (text : string) (s s' : Session St) :
  enter_text W loc text s = (Ok tt, s') ->
  exists el t,
    fst (wait_until_visible W loc s) = Ok el /\
    log s' = log s ++ t ++ [EvClear el; EvSendKeys el (Text text)] /\
    Forall (waits_on Visible loc) t.
Proof.
  intros H. unfold enter_text in H.
  destruct (until_emits W Visible loc (polls_within config.EXPLICIT_WAIT) s) as (t & L & F).
  fold (wait_until_visible W loc) in L.
  destruct (wait_until_visible W loc s) as [[el | e] s1] eqn:E1; cbn [snd] in L.
  2: { rewrite (bind_raise _ _ _ _ _ E1) in H. discriminate H. }
  rewrite (bind_ok _ _ _ _ _ E1) in H.
  pose proof (el_clear_log W el s1) as L2.
  destruct (el_clear W el s1) as [[[] | e] s2] eqn:E2; cbn [snd] in L2.
  2: { rewrite (bind_raise _ _ _ _ _ E2) in H. discriminate H. }
  rewrite (bind_ok _ _ _ _ _ E2) in H.
  pose proof (el_send_keys_log W el (Text text) s2) as L3. rewrite H in L3. cbn [snd] in L3.
  exists el, t. split; [reflexivity | split; [| exact F]].
  rewrite L3, L2, L, <- !app_assoc. reflexivity.
Qed.

(** X14.  [enter_text] (and [enter_username], [enter_password], which are the
    same three steps on fixed locators): when it returns, it has waited for
    the field to be visible, then cleared it, then typed the text, all on
    the element the wait returned. *)
Theorem enter_text_clears_then_types
    (loc : locator) (text : string) (s s' : Session St) :
  enter_text W loc text s = (Ok tt, s') ->
  exists el t,
    fst (wait_until_visible W loc s) = Ok el /\
    log s' = log s ++ t ++ [EvClear el; EvSendKeys el (Text text)] /\
    Forall (waits_on Visible loc) t.
Proof. apply enter_text_trace. Qed.

Lemma click_login_button_trace s s' :
  click_login_button W s = (Ok tt, s') ->
  exists btn t,
    fst (wait_until_clickable W LOGIN_BUTTON s) = Ok btn /\
    log s' = log s ++ t ++ [EvClick btn] /\
    Forall (waits_on Clickable LOGIN_BUTTON) t.
Proof.
  intros H. unfold click_login_button in H.
  destruct (until_emits W Clickable LOGIN_BUTTON (polls_within config.EXPLICIT_WAIT) s)
    as (t & L & F).
  fold (wait_until_clickable W LOGIN_BUTTON) in L.
  destruct (wait_until_clickable W LOGIN_BUTTON s) as [[btn | e] s1] eqn:E1; cbn [snd] in L.
  2: { rewrite (bind_raise _ _ _ _ _ E1) in H. discriminate H. }
  rewrite (bind_ok _ _ _ _ _ E1) in H.
  pose proof (el_click_log W btn s1) as L2. rewrite H in L2. cbn [snd] in L2.
  exists btn, t. split; [reflexivity | split; [| exact F]].
  rewrite L2, L, <- !app_assoc. reflexivity.
Qed.

(** X15.  The form is filled in a fixed order: user name, then password, then
    one click on the submit button, each after its own wait, and nothing
    else is sent to the page. *)
Theorem form_is_filled_in_order
    (username password : string) (s s' : Session St) :
  fill_and_submit W username password s = (Ok tt, s') ->
  exists user_el pass_el btn t1 t2 t3,
    log s' = log s
      ++ t1 ++ [EvClear user_el; EvSendKeys user_el (Text username)]
      ++ t2 ++ [EvClear pass_el; EvSendKeys pass_el (Text password)]
      ++ t3 ++ [EvClick btn] /\
    Forall (waits_on Visible USERNAME_INPUT) t1 /\
    Forall (waits_on Visible PASSWORD_INPUT) t2 /\
    Forall (waits_on Clickable LOGIN_BUTTON) t3.
Proof.
  intros H. unfold fill_and_submit in H.
  destruct (enter_username W username s) as [[[] | e] s1] eqn:E1.
  2: { rewrite (bind_raise _ _ _ _ _ E1) in H. discriminate H. }
  rewrite (bind_ok _ _ _ _ _ E1) in H.
  destruct (enter_password W password s1) as [[[] | e] s2] eqn:E2.
  2: { rewrite (bind_raise _ _ _ _ _ E2) in H. discriminate H. }
  rewrite (bind_ok _ _ _ _ _ E2) in H.
  destruct (enter_text_trace USERNAME_INPUT username s s1 E1)
    as (user_el & t1 & _ & L1 & F1).
  destruct (enter_text_trace PASSWORD_INPUT password s1 s2 E2)
    as (pass_el & t2 & _ & L2 & F2).
  destruct (click_login_button_trace s2 s' H) as (btn & t3 & _ & L3 & F3).
  exists user_el, pass_el, btn, t1, t2, t3.
  split; [| auto]. rewrite L3, L2, L1, <- !app_assoc. reflexivity.
Qed.

(** X16.  With a location given, [search_jobs] fills the keyword field, then the
    location field, and only then presses RETURN, in the keyword field. *)
Theorem location_is_filled_before_submit
    (keyword location : string) (s s' : Session St) :
  location <> "" ->
  search_jobs W keyword location s = (Ok tt, s') ->
  exists kw loc_el t1 t2 t3,
    fst (wait_until_visible W SEARCH_KEYWORD_INPUT s) = Ok kw /\
    log s' = log s
      ++ t1 ++ [EvClear kw; EvSendKeys kw (Text keyword)]
      ++ t2 ++ [EvClear loc_el; EvSendKeys loc_el (Text location);
                EvSendKeys kw RETURN]
      ++ t3 /\
    Forall (waits_on Visible SEARCH_KEYWORD_INPUT) t1 /\
    Forall (waits_on Visible SEARCH_LOCATION_INPUT) t2 /\
    Forall (waits_on Present JOB_CARDS) t3.
Proof.
  intros Hloc H. unfold search_jobs in H.
  assert (Ht : truthy_str location = true) by (destruct location; [congruence | reflexivity]).
  rewrite Ht in H.
  destruct (until_emits W Visible SEARCH_KEYWORD_INPUT (polls_within config.EXPLICIT_WAIT) s)
    as (t1 & L1 & F1).
  fold (wait_until_visible W SEARCH_KEYWORD_INPUT) in L1.
  destruct (wait_until_visible W SEARCH_KEYWORD_INPUT s) as [[kw | e] s1] eqn:E1;
    cbn [snd] in L1.
  2: { rewrite (bind_raise _ _ _ _ _ E1) in H. discriminate H. }
  rewrite (bind_ok _ _ _ _ _ E1) in H.
  pose proof (el_clear_log W kw s1) as L2.
  destruct (el_clear W kw s1) as [[[] | e] s2] eqn:E2; cbn [snd] in L2.
  2: { rewrite (bind_raise _ _ _ _ _ E2) in H. discriminate H. }
  rewrite (bind_ok _ _ _ _ _ E2) in H.
  pose proof (el_send_keys_log W kw (Text keyword) s2) as L3.
  destruct (el_send_keys W kw (Text keyword) s2) as [[[] | e] s3] eqn:E3; cbn [snd] in L3.
  2: { rewrite (bind_raise _ _ _ _ _ E3) in H. discriminate H. }
  rewrite (bind_ok _ _ _ _ _ E3) in H.
  change (bind (enter_text W SEARCH_LOCATION_INPUT location)
            (fun _ => el_send_keys W kw RETURN ;; _wait_for_job_results W ;; ret tt) s3
          = (Ok tt, s')) in H.
  destruct (enter_text W SEARCH_LOCATION_INPUT location s3) as [[[] | e] s4] eqn:E4.
  2: { rewrite (bind_raise _ _ _ _ _ E4) in H. discriminate H. }
  rewrite (bind_ok _ _ _ _ _ E4) in H.
  destruct (enter_text_trace SEARCH_LOCATION_INPUT location s3 s4 E4)
    as (loc_el & t2 & _ & L4 & F4).
  pose proof (el_send_keys_log W kw RETURN s4) as L5.
  destruct (el_send_keys W kw RETURN s4) as [[[] | e] s5] eqn:E5; cbn [snd] in L5.
  2: { rewrite (bind_raise _ _ _ _ _ E5) in H. discriminate H. }
  rewrite (bind_ok _ _ _ _ _ E5) in H.
  destruct (_wait_for_job_results_emits W s5) as (t3 & L6 & F6).
  destruct (_wait_for_job_results W s5) as [[b | e] s6] eqn:E6; cbn [snd] in L6.
  2: { rewrite (bind_raise _ _ _ _ _ E6) in H. discriminate H. }
  rewrite (bind_ok _ _ _ _ _ E6) in H. cbn [ret] in H. injection H as <-.
  exists kw, loc_el, t1, t2, t3. split; [reflexivity | split; [| auto]].
  rewrite L6, L5, L4, L3, L2, L1, <- !app_assoc. reflexivity.
Qed.

(** A page read returns at most one link per card handed to the loop. *)
Lemma read_cards_bound cards : forall acc s,
  length (match fst (read_cards W cards acc s) with Ok l => l | Raise _ => [] end)
    <= length acc + length cards.
Proof.
  induction cards as [| card rest IH]; intros acc s; cbn [read_cards].
  - cbn. lia.
  - destruct (read_card_total W card acc s) as (l1 & s1 & E1).
    rewrite (bind_ok _ _ _ _ _ E1).
    assert (Hl : length l1 <= S (length acc)).
    { unfold read_card, try_except, bind in E1.
      destruct (el_find_elements W card EASY_APPLY_BADGE s) as [[badges | e] sa];
        [| injection E1 as <- _; lia].
      destruct (truthy_list badges); [| injection E1 as <- _; lia].
      destruct (el_find_element W card JOB_TITLE_LINK sa) as [[link | e] sb];
        [| injection E1 as <- _; lia].
      destruct (el_get_attribute W link "href" sb) as [[[u |] | e] sc];
        try (injection E1 as <- _; lia).
      destruct (truthy_str u); injection E1 as <- _; rewrite ?length_app; cbn; lia. }
    specialize (IH l1 s1). cbn [length]. lia.
Qed.

(** X12.  The list a page read returns is never longer than the list of cards it
    was given: a card contributes at most one link. *)
Theorem at_most_one_link_per_card (s : Session St) :
  exists cards s1 links s2,
    get_job_cards W s = (Ok cards, s1) /\
    get_easy_apply_job_links W s = (Ok links, s2) /\
    length links <= length cards.
Proof.
  destruct (get_job_cards_total W s) as (cards & s1 & E1).
  unfold get_easy_apply_job_links.
  rewrite (bind_ok _ _ _ _ _ E1), (bind_ok _ _ _ _ _ (print_eq _ _ _)).
  pose proof (read_cards_bound cards [] (logged (EvPrint INFO "Found job cards on page") s1))
    as B.
  destruct (read_cards_total W cards [] (logged (EvPrint INFO "Found job cards on page") s1))
    as (links & s2 & E2).
  rewrite E2 in B. cbn in B. rewrite E2.
  exists cards, s1, links, s2. repeat split; [exact E1 | exact B].
Qed.

End Typing.

(** * Further properties of cookie injection *)

Section Replay.

Context {St : Type}.
Variable W : World St.

(** X17.  Whatever else a stored record holds (an expiry, a same-site policy),
    the dict handed to the browser has no key beyond the six the loop
    copies; and a [domain] the record does have is passed on unchanged. *)
Theorem only_six_keys_reach_the_browser (c : cookie) (name value : json) :
  (forall k,
      cookie_to_add c name value !! k <> None ->
      k ∈ ["name"; "value"; "domain"; "path"; "secure"; "httpOnly"]) /\
  (forall d, c !! "domain" = Some d -> cookie_to_add c name value !! "domain" = Some d).
Proof.
  split.
  - intros k. rewrite cookie_to_add_lookup.
    destruct (String.eqb_spec k "name") as [-> | _]; [intros _; set_solver |].
    destruct (String.eqb_spec k "value") as [-> | _]; [intros _; set_solver |].
    destruct (String.eqb_spec k "domain") as [-> | _]; [intros _; set_solver |].
    destruct (String.eqb_spec k "path") as [-> | _]; [intros _; set_solver |].
    destruct (String.eqb_spec k "secure") as [-> | _]; [intros _; set_solver |].
    destruct (String.eqb_spec k "httpOnly") as [-> | _]; [intros _; set_solver |].
    cbn. congruence.
  - intros d Hd. rewrite cookie_to_add_lookup. cbn. now rewrite Hd.
Qed.

(** What the loop submits for a record: nothing without both mandatory
    keys. *)
Definition submission (c : cookie) : option cookie :=
  match c !! "name", c !! "value" with
  | Some name, Some value => Some (cookie_to_add c name value)
  | _, _ => None
  end.

(** The cookies submitted to the browser, as the log has them. *)
Definition submitted (tr : list event) : list cookie :=
  omap (fun ev => match ev with EvAddCookie c => Some c | _ => None end) tr.

Lemma add_one_cookie_submits c n s :
  exists tr,
    log (snd (add_one_cookie W c n s)) = log s ++ tr /\
    submitted tr = option_list (submission c).
Proof.
  unfold submission.
  destruct (c !! "name") as [name |] eqn:En.
  - destruct (c !! "value") as [value |] eqn:Ev.
    + rewrite (add_one_cookie_wellformed W c n s name value En Ev). cbn zeta.
      destruct (w_add_cookie W (cookie_to_add c name value) (world s)) as [[[] | e] w1]; cbn.
      * exists [EvAddCookie (cookie_to_add c name value)]. now split.
      * exists [EvAddCookie (cookie_to_add c name value);
                EvPrint WARNING "Could not add cookie"].
        split; [now rewrite <- app_assoc | reflexivity].
    + rewrite (add_one_cookie_missing W c n s (or_intror Ev)). cbn.
      exists [EvPrint WARNING "Could not add cookie"]. now split.
  - rewrite (add_one_cookie_missing W c n s (or_introl En)). cbn.
    exists [EvPrint WARNING "Could not add cookie"]. now split.
Qed.

Lemma submitted_app t1 t2 : submitted (t1 ++ t2) = submitted t1 ++ submitted t2.
Proof. unfold submitted. apply omap_app. Qed.

Lemma add_cookies_from_submits cookies : forall n s,
  exists tr,
    log (snd (add_cookies_from W cookies n s)) = log s ++ tr /\
    submitted tr = omap submission cookies.
Proof.
  induction cookies as [| c rest IH]; intros n s; cbn [add_cookies_from].
  - exists []. cbn. now rewrite app_nil_r.
  - destruct (add_one_cookie_submits c n s) as (t1 & L1 & S1).
    destruct (add_one_cookie_total W c n s) as (k & s1 & E1).
    rewrite E1 in L1. cbn [snd] in L1. rewrite (bind_ok _ _ _ _ _ E1).
    destruct (IH k s1) as (t2 & L2 & S2).
    exists (t1 ++ t2). split; [now rewrite L2, L1, app_assoc |].
    rewrite submitted_app, S1, S2. cbn [omap list_omap].
    now destruct (submission c).
Qed.

(** X18.  Every record carrying [name] and [value] is submitted to the browser
    exactly once, in the order of the file, whether or not the browser
    accepts the ones before it; a record lacking either is never
    submitted. *)
Theorem records_are_submitted_once_in_order (cookies : list cookie) (s : Session St) :
  exists tr,
    log (snd (add_cookies_to_driver W cookies s)) = log s ++ tr /\
    submitted tr = omap submission cookies.
Proof. apply add_cookies_from_submits. Qed.

End Replay.

(** * Further properties of the run *)

Section Run.

Context {St : Type}.
Variable W : World St.
Variable cfg : config.t.

Lemma cleanup_trace s :
  exists s' closing,
    cleanup W s = (Ok tt, s') /\
    log s' = log s ++ [EvPrint CLEANUP "Closing browser..."; EvQuit; EvPrint CLEANUP closing].
Proof.
  unfold cleanup, try_except, driver_quit.
  rewrite (bind_ok _ _ _ _ _ (print_eq _ _ _)).
  unfold bind, emit, ask, print. cbn.
  destruct (w_quit W (world s)) as [[[] | e] w1]; cbn;
    eexists _, _; (split; [reflexivity |]); cbn; rewrite <- !app_assoc; reflexivity.
Qed.

Lemma run_after_startup s s0 :
  startup W s = (Ok tt, s0) ->
  exists r s1 s' closing,
    report_and_reraise (automation_steps W cfg) s0 = (r, s1) /\
    run_job_automation W cfg s = (r, s') /\
    log s' = log s1 ++ [EvPrint CLEANUP "Closing browser..."; EvQuit;
                        EvPrint CLEANUP closing].
Proof.
  intros H0. unfold run_job_automation.
  assert (Hs : report_and_reraise (startup W) s = (Ok tt, s0))
    by (unfold report_and_reraise; now rewrite (try_except_ok _ _ _ _ _ H0)).
  rewrite (bind_ok _ _ _ _ _ Hs).
  unfold try_finally.
  destruct (report_and_reraise (automation_steps W cfg) s0) as [r s1].
  destruct (cleanup_trace s1) as (s' & closing & E & L). rewrite E.
  exists r, s1, s', closing. repeat split. exact L.
Qed.

(** X19.  Once the driver has been started, every way out of the run (a
    returned list or an exception from any later step) passes through one
    [driver.quit], issued last; and the outcome of the run is the outcome
    of its steps, whatever [quit] itself does.  When the driver could not
    be started there is nothing to quit, and nothing is quit. *)
Theorem browser_is_quit_on_every_exit_path (s : Session St) :
  (forall s0,
      startup W s = (Ok tt, s0) ->
      exists r s1 s' closing,
        report_and_reraise (automation_steps W cfg) s0 = (r, s1) /\
        run_job_automation W cfg s = (r, s') /\
        log s' = log s1 ++ [EvPrint CLEANUP "Closing browser..."; EvQuit;
                            EvPrint CLEANUP closing]) /\
  (forall e s0,
      startup W s = (Raise e, s0) ->
      run_job_automation W cfg s = (Raise e, logged (EvPrint ERROR "Automation failed") s0)).
Proof.
  split.
  - intros s0 H0. now apply run_after_startup.
  - intros e s0 H0. unfold run_job_automation.
    assert (Hs : report_and_reraise (startup W) s
                 = (Raise e, logged (EvPrint ERROR "Automation failed") s0))
      by (unfold report_and_reraise; now rewrite (try_except_raise _ _ _ _ _ H0)).
    now rewrite (bind_raise _ _ _ _ _ Hs).
Qed.

(** X20.  Authentication gates the run: when [authenticate] returns [False], the
    run raises "Authentication failed" and the job pages are never
    requested: after the failure only the report and the cleanup follow. *)
Theorem failed_authentication_stops_the_run (s s0 s1 : Session St) :
  startup W s = (Ok tt, s0) ->
  authenticate W cfg (logged (EvPrint STEP "Authenticating to LinkedIn...") s0)
    = (Ok false, s1) ->
  exists s' closing,
    run_job_automation W cfg s = (Raise (PyException "Authentication failed"), s') /\
    log s' = log s1 ++ [EvPrint ERROR "Automation failed";
                        EvPrint CLEANUP "Closing browser..."; EvQuit;
                        EvPrint CLEANUP closing].
Proof.
  intros H0 Ha.
  destruct (run_after_startup s s0 H0)
    as (r & s2 & s' & closing & E & Hrun & L).
  assert (Hsteps : report_and_reraise (automation_steps W cfg) s0
                   = (Raise (PyException "Authentication failed"),
                      logged (EvPrint ERROR "Automation failed") s1)).
  { unfold report_and_reraise, automation_steps, try_except.
    rewrite (bind_ok _ _ _ _ _ (print_eq _ _ _)), (bind_ok _ _ _ _ _ Ha).
    reflexivity. }
  rewrite Hsteps in E. injection E as <- <-.
  exists s', closing. split; [exact Hrun |].
  rewrite L. cbn. now rewrite <- app_assoc.
Qed.

(** X21.  [main] turns the outcome of the run into an exit code and lets no
    exception through: 0 exactly when the run returned its list, 1 exactly
    when it raised. *)
Theorem exit_code_reflects_the_run (s : Session St) :
  exists code s',
    main W cfg s = (Ok code, s') /\
    (code = 0 <-> exists links s1, run_job_automation W cfg s = (Ok links, s1)) /\
    (code = 1 <-> exists e s1, run_job_automation W cfg s = (Raise e, s1)).
Proof.
  unfold main, try_except.
  destruct (run_job_automation W cfg s) as [[links | e] s1] eqn:E.
  - rewrite (bind_ok _ _ _ _ _ E). cbn. eexists 0, _.
    split; [reflexivity | split; split; intros H].
    + eauto.
    + reflexivity.
    + discriminate H.
    + destruct H as (e & s2 & H). discriminate H.
  - rewrite (bind_raise _ _ _ _ _ E). cbn. eexists 1, _.
    split; [reflexivity | split; split; intros H].
    + discriminate H.
    + destruct H as (l & s2 & H). discriminate H.
    + eauto.
    + reflexivity.
Qed.

End Run.

(** * The further properties at work *)

Module Coverage.
Import Site Worlds.

(** X13.  On a page that does not change while it is read, the page read
    returns the [href] of every badged card that has a non-empty one, in
    the order of the cards and with repetitions kept, and leaves the page
    as it found it. *)
Theorem static_page_read_keeps_card_order (st : Site.t) (lg : list event) :
  exists lg',
    get_easy_apply_job_links site (MkSession st lg) =
      (Ok (flat_map card_links (current st)), MkSession st lg').
Proof. exact (SiteFacts.page_read st lg). Qed.

Lemma cookie_strategy_never_touches_the_page_witness :
  config.AUTH_METHOD by_cookie = "cookie" /\
  exists tr,
    log (snd (authenticate site by_cookie (fresh []))) = log (fresh []) ++ tr /\
    Forall element_free tr.
Proof.
  split; [reflexivity |].
  exact (cookie_strategy_never_touches_the_page site by_cookie (fresh []) eq_refl).
Defined.

Lemma credentials_strategy_never_touches_cookies_witness :
  config.AUTH_METHOD by_credentials = "credentials" /\
  exists tr,
    log (snd (authenticate site by_credentials (fresh []))) = log (fresh []) ++ tr /\
    Forall cookie_free tr.
Proof.
  split; [reflexivity |].
  exact (credentials_strategy_never_touches_cookies site by_credentials (fresh []) eq_refl).
Defined.

Lemma unknown_method_fails_without_browser_witness :
  config.AUTH_METHOD unknown_method <> "cookie" /\
  config.AUTH_METHOD unknown_method <> "credentials" /\
  fst (authenticate site unknown_method (fresh [])) = Ok false.
Proof.
  assert (H1 : config.AUTH_METHOD unknown_method <> "cookie") by discriminate.
  assert (H2 : config.AUTH_METHOD unknown_method <> "credentials") by discriminate.
  split; [exact H1 | split; [exact H2 |]].
  now rewrite (unknown_method_fails_without_browser site unknown_method (fresh []) H1 H2).
Defined.

Lemma missing_credentials_fail_without_browser_witness :
  config.LINKEDIN_PASSWORD no_password = "" /\
  fst (authenticate site no_password (fresh [])) = Ok false.
Proof.
  split; [reflexivity |].
  now rewrite (missing_credentials_fail_without_browser site no_password (fresh [])
                 eq_refl (or_intror eq_refl)).
Defined.

Lemma missing_login_form_is_not_absorbed_witness :
  fst (authenticate blank_page by_credentials (before_login None)) = Raise TimeoutException.
Proof.
  pose (sa := before_login None).
  pose (s := snd (navigate_to_login blank_page
                    (logged (EvPrint INFO "Logging in as")
                       (logged (EvPrint INFO "Authentication method") sa)))).
  pose (s0 := snd (get_current_url blank_page s)).
  pose (s1 := snd (wait_until_visible blank_page USERNAME_INPUT s0)).
  assert (Hopen : opened_login_page blank_page by_credentials sa s)
    by (repeat split; vm_compute; reflexivity).
  assert (H0 : get_current_url blank_page s = (Ok (config.BASE_URL +:+ "/login"), s0))
    by (vm_compute; reflexivity).
  assert (H1 : wait_until_visible blank_page USERNAME_INPUT s0 = (Raise TimeoutException, s1))
    by (vm_compute; reflexivity).
  exact (f_equal fst (proj2 (missing_login_form_is_not_absorbed blank_page by_credentials
                               sa s _ s0 _ s1 Hopen H0 H1))).
Defined.

Lemma login_succeeds_on_redirect_witness :
  fst (authenticate site by_credentials (before_login (Some FEED_URL))) = Ok true.
Proof.
  pose (sa := before_login (Some FEED_URL)).
  pose (s := snd (navigate_to_login site
                    (logged (EvPrint INFO "Logging in as")
                       (logged (EvPrint INFO "Authentication method") sa)))).
  pose (s0 := snd (get_current_url site s)).
  pose (s1 := snd (fill_and_submit site (config.LINKEDIN_USERNAME by_credentials)
                     (config.LINKEDIN_PASSWORD by_credentials) s0)).
  pose (s2 := snd (wait_for_url_change site (config.BASE_URL +:+ "/login") 15 s1)).
  assert (Hopen : opened_login_page site by_credentials sa s)
    by (repeat split; vm_compute; reflexivity).
  assert (H0 : get_current_url site s = (Ok (config.BASE_URL +:+ "/login"), s0))
    by (vm_compute; reflexivity).
  assert (H1 : fill_and_submit site (config.LINKEDIN_USERNAME by_credentials)
                 (config.LINKEDIN_PASSWORD by_credentials) s0 = (Ok tt, s1))
    by (vm_compute; reflexivity).
  assert (H2 : wait_for_url_change site (config.BASE_URL +:+ "/login") 15 s1 = (Ok true, s2))
    by (vm_compute; reflexivity).
  assert (H3 : w_current_url site (world s2) = (Ok FEED_URL, world s2))
    by (vm_compute; reflexivity).
  assert (H4 : str_in "/login" FEED_URL = false) by (vm_compute; reflexivity).
  assert (H5 : str_in "/checkpoint" FEED_URL = false) by (vm_compute; reflexivity).
  exact (f_equal fst (proj2 (login_succeeds_on_redirect site by_credentials
                               sa s _ s0 s1 s2 _ _ Hopen H0 H1 H2 H3 H4 H5))).
Defined.

Lemma cookie_login_is_decided_by_location_witness :
  exists s', login_with_cookies site by_cookie None (fresh []) = (Ok true, s').
Proof.
  pose (s1 := snd (replay site by_cookie (path_or_default by_cookie None) (fresh []))).
  assert (H0 : replay site by_cookie (path_or_default by_cookie None) (fresh []) = (Ok tt, s1))
    by (vm_compute; reflexivity).
  assert (H1 : w_current_url site (world s1) = (Ok FEED_URL, world s1))
    by (vm_compute; reflexivity).
  destruct (proj1 (cookie_login_is_decided_by_location site by_cookie None
                     (fresh []) s1 FEED_URL (world s1) H0 H1)) as (s' & E & _).
  assert (Hb : negb (str_in "/login" FEED_URL || str_in "/authwall" FEED_URL) = true)
    by (vm_compute; reflexivity).
  rewrite Hb in E. exists s'. exact E.
Defined.

Lemma url_change_is_detected_at_first_sight_witness :
  wait_for_url_change (redirecting 2) (config.BASE_URL +:+ "/login") 15 (MkSession 0 [])
    = (Ok true,
       MkSession 2 [EvCurrentUrl; EvSleep 1; EvCurrentUrl; EvSleep 1; EvCurrentUrl]).
Proof.
  apply (url_change_is_detected_at_first_sight (redirecting 2)
           (config.BASE_URL +:+ "/login") 15 2 (MkSession 0 [])
           (config.BASE_URL +:+ "/feed") 2).
  - lia.
  - cbn. exists 0. split; [reflexivity |]. exists 1. split; [reflexivity | exact I].
  - reflexivity.
  - discriminate.
Defined.

Lemma no_cards_means_no_links_witness :
  fst (get_easy_apply_job_links site (at_results [] true false)) = Ok [].
Proof.
  pose (s := at_results [] true false).
  pose (s1 := snd (wait_until_present site JOB_CARDS s)).
  assert (H : wait_until_present site JOB_CARDS s = (Raise TimeoutException, s1))
    by (vm_compute; reflexivity).
  exact (f_equal fst (no_cards_means_no_links site s TimeoutException s1 H)).
Defined.

Lemma enter_text_clears_then_types_witness :
  exists el t,
    log (snd (enter_text site USERNAME_INPUT "ada@example.org" (at_login None false)))
      = log (at_login None false) ++ t ++ [EvClear el; EvSendKeys el (Text "ada@example.org")].
Proof.
  pose (s := at_login None false).
  pose (s' := snd (enter_text site USERNAME_INPUT "ada@example.org" s)).
  assert (H : enter_text site USERNAME_INPUT "ada@example.org" s = (Ok tt, s'))
    by (vm_compute; reflexivity).
  destruct (enter_text_clears_then_types site USERNAME_INPUT "ada@example.org" s s' H)
    as (el & t & _ & L & _).
  exists el, t. exact L.
Defined.

Lemma form_is_filled_in_order_witness :
  exists user_el pass_el btn t1 t2 t3,
    log (snd (fill_and_submit site "ada@example.org" "correct horse" (at_login None false)))
      = log (at_login None false)
        ++ t1 ++ [EvClear user_el; EvSendKeys user_el (Text "ada@example.org")]
        ++ t2 ++ [EvClear pass_el; EvSendKeys pass_el (Text "correct horse")]
        ++ t3 ++ [EvClick btn].
Proof.
  pose (s := at_login None false).
  pose (s' := snd (fill_and_submit site "ada@example.org" "correct horse" s)).
  assert (H : fill_and_submit site "ada@example.org" "correct horse" s = (Ok tt, s'))
    by (vm_compute; reflexivity).
  destruct (form_is_filled_in_order site "ada@example.org" "correct horse" s s' H)
    as (u & p & b & t1 & t2 & t3 & L & _).
  exists u, p, b, t1, t2, t3. exact L.
Defined.

Lemma location_is_filled_before_submit_witness :
  exists kw loc_el t1 t2 t3,
    log (snd (search_jobs site "Software Engineer" "Remote" (at_results sample_page true false)))
      = log (at_results sample_page true false)
        ++ t1 ++ [EvClear kw; EvSendKeys kw (Text "Software Engineer")]
        ++ t2 ++ [EvClear loc_el; EvSendKeys loc_el (Text "Remote"); EvSendKeys kw RETURN]
        ++ t3.
Proof.
  pose (s := at_results sample_page true false).
  pose (s' := snd (search_jobs site "Software Engineer" "Remote" s)).
  assert (H : search_jobs site "Software Engineer" "Remote" s = (Ok tt, s'))
    by (vm_compute; reflexivity).
  assert (Hne : "Remote" <> "") by discriminate.
  destruct (location_is_filled_before_submit site "Software Engineer" "Remote" s s' Hne H)
    as (kw & l & t1 & t2 & t3 & _ & L & _).
  exists kw, l, t1, t2, t3. exact L.
Defined.

Lemma failed_authentication_stops_the_run_witness :
  fst (run_job_automation site by_cookie without_cookie_file)
    = Raise (PyException "Authentication failed").
Proof.
  pose (s := without_cookie_file).
  pose (s0 := snd (startup site s)).
  pose (s1 := snd (authenticate site by_cookie
                     (logged (EvPrint STEP "Authenticating to LinkedIn...") s0))).
  assert (H0 : startup site s = (Ok tt, s0)) by (vm_compute; reflexivity).
  assert (H1 : authenticate site by_cookie
                 (logged (EvPrint STEP "Authenticating to LinkedIn...") s0) = (Ok false, s1))
    by (vm_compute; reflexivity).
  destruct (failed_authentication_stops_the_run site by_cookie s s0 s1 H0 H1)
    as (s' & closing & E & _).
  exact (f_equal fst E).
Defined.

Lemma login_check_fails_on_marker_anywhere_witness :
  fst (_is_login_successful site (at_url feed_with_redirect)) = Ok false.
Proof.
  assert (Hu : w_current_url site (world (at_url feed_with_redirect))
               = (Ok feed_with_redirect, world (at_url feed_with_redirect)))
    by reflexivity.
  destruct (login_check_fails_on_marker_anywhere site (at_url feed_with_redirect)
              feed_with_redirect _ Hu) as (b & E & Hb).
  rewrite E. cbn [fst]. f_equal. apply Hb.
  exists "https://www.linkedin.com/feed/?session_redirect=", "". left.
  vm_compute. reflexivity.
Defined.

End Coverage.
